(** * Dog breed predictor: a shallow embedding of [main.py] and [create_model.py]

    The service keeps two process-wide globals ([model], [breeds]), fills
    them in [startup_event] and then answers HTTP requests.  The numeric
    work (feature extraction, softmax, image decoding and resampling) is
    done by third-party libraries; those calls appear here as fields of an
    environment record [Env], so that every function of the repository is
    written out over them exactly as the Python source composes them.

    Conventions.
    - Python [str] is [string], one [ascii] per character.  [str.title]
      depends on the Unicode tables, so it is a function of the
      environment; [PyStr.title] is what it does on ASCII strings.
    - A finite float (a softmax output, a normalised pixel) is a rational
      [Q]; comparisons of finite floats agree with [Qle_bool].  NaN is not
      represented.
    - An exception is the [Raise] outcome of the monad [M]; [try/except]
      is [try_catch].
    - [print] calls and the directory listing that only feeds them are
      left out. *)

From Stdlib Require Import String Ascii List ZArith QArith Qround Lia Bool Arith.
From Stdlib Require Import Permutation Sorted.
Import ListNotations.
Local Open Scope string_scope.
Local Open Scope list_scope.

Set Implicit Arguments.
Set Warnings "-register-all".

(* ===================================================================== *)
(** ** Python strings: [str.replace("_", " ")] and [str.title()] *)
(* ===================================================================== *)

Module PyStr.

Definition is_upper (c : ascii) : bool :=
  let n := nat_of_ascii c in (65 <=? n)%nat && (n <=? 90)%nat.

Definition is_lower (c : ascii) : bool :=
  let n := nat_of_ascii c in (97 <=? n)%nat && (n <=? 122)%nat.

Definition to_upper (c : ascii) : ascii :=
  if is_lower c then ascii_of_nat (nat_of_ascii c - 32) else c.

Definition to_lower (c : ascii) : ascii :=
  if is_upper c then ascii_of_nat (nat_of_ascii c + 32) else c.

(** [s.replace("_", " ")]: every underscore becomes a space. *)
Fixpoint replace_underscore (s : string) : string :=
  match s with
  | EmptyString => EmptyString
  | String c r =>
      String (if Ascii.eqb c "_"%char then " "%char else c)
             (replace_underscore r)
  end.

(** [s.title()] on an ASCII string: a letter is upper-cased when the
    character before it is not a letter, and lower-cased otherwise. *)
Fixpoint title_from (prev_cased : bool) (s : string) : string :=
  match s with
  | EmptyString => EmptyString
  | String c r =>
      if is_lower c then
        String (if prev_cased then c else to_upper c) (title_from true r)
      else if is_upper c then
        String (if prev_cased then to_lower c else c) (title_from true r)
      else String c (title_from false r)
  end.

Definition title (s : string) : string := title_from false s.

(** [breed.replace("_", " ").title()] on an ASCII name. *)
Definition display (s : string) : string := title (replace_underscore s).

End PyStr.

(* ===================================================================== *)
(** ** Python values, exceptions and the outcome of a call *)
(* ===================================================================== *)

(** What [json.load] can return.  [JNull] is Python's [None], so the
    initial value [breeds = None] is [JNull] too; the fallback [-1] of
    [load_breeds] is [JInt (-1)].  A [dict] keeps its items in order. *)
Inductive JSON : Type :=
| JNull
| JBool (b : bool)
| JInt (z : Z)
| JFloat (q : Q)
| JStr (s : string)
| JArr (items : list JSON)
| JObj (fields : list (string * JSON)).

Inductive ExnKind : Type :=
| FileNotFoundError | OSError | JSONDecodeError
| TypeError | AttributeError | IndexError | KeyError | ValueError
| LibraryError.

(** [HTTPException] is FastAPI's; every other exception is a [PyExc]. *)
Inductive Exn : Type :=
| HTTPException (status_code : nat) (detail : string)
| PyExc (kind : ExnKind) (msg : string).

Definition exn_str (e : Exn) : string :=
  match e with
  | HTTPException _ d => d
  | PyExc _ m => m
  end.

Inductive Result (A : Type) : Type :=
| Ok (a : A)
| Raise (e : Exn).
Arguments Ok {A} a.
Arguments Raise {A} e.

Definition is_list (v : JSON) : bool :=
  match v with JArr _ => true | _ => false end.

(** [len(v)] *)
Definition py_len (v : JSON) : Result nat :=
  match v with
  | JArr l => Ok (List.length l)
  | JObj l => Ok (List.length l)
  | JStr s => Ok (String.length s)
  | _ => Raise (PyExc TypeError "object has no len()")
  end.

(** Truth value of [v], as in [if v]. *)
Definition py_truthy (v : JSON) : bool :=
  match v with
  | JNull => false
  | JBool b => b
  | JInt z => negb (z =? 0)%Z
  | JFloat q => negb (Qeq_bool q 0)
  | JStr s => negb (String.eqb s "")
  | JArr l => match l with [] => false | _ => true end
  | JObj l => match l with [] => false | _ => true end
  end.

(** [v[i]] for an index [i] produced by numpy (never negative). *)
Definition py_getitem (v : JSON) (i : nat) : Result JSON :=
  match v with
  | JArr l =>
      match nth_error l i with
      | Some x => Ok x
      | None => Raise (PyExc IndexError "list index out of range")
      end
  | JStr s =>
      match String.get i s with
      | Some c => Ok (JStr (String c EmptyString))
      | None => Raise (PyExc IndexError "string index out of range")
      end
  | JObj _ => Raise (PyExc KeyError "key")
  | _ => Raise (PyExc TypeError "object is not subscriptable")
  end.

(** The items of [for x in v]. *)
Fixpoint chars (s : string) : list JSON :=
  match s with
  | EmptyString => []
  | String c r => JStr (String c EmptyString) :: chars r
  end.

Definition py_iter (v : JSON) : Result (list JSON) :=
  match v with
  | JArr l => Ok l
  | JStr s => Ok (chars s)
  | JObj l => Ok (map (fun kv => JStr (fst kv)) l)
  | _ => Raise (PyExc TypeError "object is not iterable")
  end.

(** [v[:n]] *)
Definition py_slice_to (v : JSON) (n : nat) : Result JSON :=
  match v with
  | JArr l => Ok (JArr (firstn n l))
  | JStr s => Ok (JStr (String.substring 0 (Nat.min n (String.length s)) s))
  | JObj _ => Raise (PyExc TypeError "unhashable type: 'slice'")
  | _ => Raise (PyExc TypeError "object is not subscriptable")
  end.

(** [[f(x) for x in l]], stopping at the first exception. *)
Fixpoint map_result {A B : Type} (f : A -> Result B) (l : list A)
  : Result (list B) :=
  match l with
  | [] => Ok []
  | x :: r =>
      match f x with
      | Raise e => Raise e
      | Ok y =>
          match map_result f r with
          | Raise e => Raise e
          | Ok ys => Ok (y :: ys)
          end
      end
  end.

(* ===================================================================== *)
(** ** The model: architecture and parameters *)
(* ===================================================================== *)

Inductive Layer : Type :=
| InputLayer (input_shape : list (option nat))
| LambdaHubKerasLayer (url : string)
| Dense (units : nat) (activation : string).

Inductive Loss : Type := CategoricalCrossentropy.
Inductive Optimizer : Type := Adam.

(** [tf.keras.Sequential([...])] followed by [model.compile(...)]. *)
Record Architecture : Type := mkArchitecture {
  layers : list Layer;
  loss : Loss;
  optimizer : Optimizer;
  metrics : list string
}.

Definition Weights : Type := list Q.

Inductive Params : Type :=
| Untrained
| Trained (w : Weights).

Record Model : Type := mkModel {
  arch : Architecture;
  params : Params
}.

(* ===================================================================== *)
(** ** Images and tensors *)
(* ===================================================================== *)

(** A decoded PIL image: [size] is (width, height); [data] is what
    [np.array(image)] yields, rows of pixels of band values. *)
Record Image : Type := mkImage {
  mode : string;
  size : nat * nat;
  format : option string;
  data : list (list (list Z))
}.

(** A batch of images as float arrays: batch, row, column, channel. *)
Definition Tensor : Type := list (list (list (list Q))).

(* ===================================================================== *)
(** ** numpy on float vectors *)
(* ===================================================================== *)

Module Np.

(** [a > b] on finite floats. *)
Definition gtb (a b : Q) : bool := negb (Qle_bool a b).

(** Scan of [np.argmax]: the running best is replaced only by a
    strictly larger value, so the first maximal position wins. *)
Fixpoint argmax_from (best_i : nat) (best : Q) (i : nat) (l : list Q)
  : nat :=
  match l with
  | [] => best_i
  | x :: r =>
      if gtb x best then argmax_from i x (S i) r
      else argmax_from best_i best (S i) r
  end.

(** [np.argmax(a)] of a flattened array. *)
Definition argmax (l : list Q) : Result nat :=
  match l with
  | [] => Raise (PyExc ValueError "attempt to get argmax of an empty sequence")
  | x :: r => Ok (argmax_from 0 x 1 r)
  end.

Fixpoint max_from (best : Q) (l : list Q) : Q :=
  match l with
  | [] => best
  | x :: r => if gtb x best then max_from x r else max_from best r
  end.

(** [np.max(a)] *)
Definition max (l : list Q) : Result Q :=
  match l with
  | [] => Raise (PyExc ValueError "zero-size array to reduction operation maximum")
  | x :: r => Ok (max_from x r)
  end.

(** [a[-k:]] for [k >= 1] (the source passes 3): the last [k] items, all
    of them when there are fewer. *)
Definition last_k {A : Type} (k : nat) (l : list A) : list A :=
  skipn (List.length l - k) l.

(** [np.array(image, dtype=np.float32) / 255.0] *)
Definition scale255 (d : list (list (list Z))) : list (list (list Q)) :=
  map (map (map (fun v => inject_Z v / 255)%Q)) d.

(** [np.expand_dims(a, axis=0)] *)
Definition expand_dims0 {A : Type} (a : A) : list A := [a].

(** Insertion of index [i] into an index list already ordered by value:
    [i] goes after every index whose value is not larger, which keeps
    equal values in their original order.  This is the order numpy's
    insertion pass produces on short arrays. *)
Fixpoint insert_idx (v : list Q) (i : nat) (sorted : list nat) : list nat :=
  match sorted with
  | [] => [i]
  | j :: r =>
      if gtb (nth j v 0%Q) (nth i v 0%Q) then i :: j :: r
      else j :: insert_idx v i r
  end.

Definition argsort_stable (v : list Q) : list nat :=
  fold_left (fun acc i => insert_idx v i acc) (seq 0 (List.length v)) [].

End Np.

(* ===================================================================== *)
(** ** The environment: files, TensorFlow, PIL *)
(* ===================================================================== *)

(** An uploaded file as the handler sees it. *)
Record UploadFile : Type := mkUploadFile {
  filename : option string;
  content_type : option string;
  read : Result (list Z)
}.

Record Env : Type := mkEnv {
  (** [with open('breeds.json') as f: json.load(f)] *)
  open_breeds_json : Result JSON;
  (** [os.path.exists] *)
  os_path_exists : string -> bool;
  (** [tf.keras.Sequential([...])] and [model.compile(...)] *)
  keras_build : Architecture -> Result unit;
  (** [model.load_weights(path)] *)
  keras_load_weights : Architecture -> string -> Result Weights;
  (** [model.predict(x, verbose=0)] *)
  keras_predict : Model -> Tensor -> Result (list (list Q));
  (** [str(model.input_shape)], [str(model.output_shape)],
      [model.count_params()] *)
  keras_summary : Model -> Result (string * string * nat);
  (** [len(tf.config.list_physical_devices('GPU'))], [tf.__version__] *)
  tf_gpu_count : nat;
  tf_version : string;
  (** [Image.open(io.BytesIO(data))], with the pixel data decoded *)
  pil_open : list Z -> Result Image;
  (** [image.convert('RGB')], [image.resize((w, h))] *)
  pil_convert_RGB : Image -> Image;
  pil_resize : nat * nat -> Image -> Image;
    (** [np.argsort] with its default kind *)
  np_argsort : list Q -> list nat;
  (** [s.title()] *)
  str_title : string -> string
}.

(** What numpy promises of [argsort]: a permutation of the positions that
    lists the values in non-decreasing order.  The order among equal
    values is not part of the promise. *)
Definition le_at (v : list Q) (i j : nat) : Prop :=
  (nth i v 0 <= nth j v 0)%Q.

Definition argsort_ok (f : list Q -> list nat) : Prop :=
  forall v,
    Permutation (f v) (seq 0 (List.length v)) /\
    StronglySorted (le_at v) (f v).

(** A mode-[RGB] image holds three 8-bit bands per pixel and as many rows
    and columns as its size says. *)
Definition is_byte (z : Z) : bool := (0 <=? z)%Z && (z <=? 255)%Z.

Definition is_rgb8 (im : Image) : bool :=
  String.eqb (mode im) "RGB" &&
  (List.length (data im) =? snd (size im))%nat &&
  forallb (fun row =>
    (List.length row =? fst (size im))%nat &&
    forallb (fun px => (List.length px =? 3)%nat && forallb is_byte px) row)
    (data im).

(** What PIL promises of [convert] and [resize]. *)
Definition pil_ok (E : Env) : Prop :=
  (forall im, is_rgb8 (pil_convert_RGB E im) = true) /\
  (forall wh im, is_rgb8 im = true ->
     is_rgb8 (pil_resize E wh im) = true /\ size (pil_resize E wh im) = wh).

(* ===================================================================== *)
(** ** Process state and the monad of [main.py] *)
(* ===================================================================== *)

(** Calls whose position in a handler matters. *)
Inductive Event : Type :=
| EvFileRead
| EvImageOpen
| EvPredict.

(** The two globals of [main.py], and the calls made so far. *)
Record State : Type := mkState {
  model : option Model;
  breeds : JSON;
  trace : list Event
}.

(** [model = None], [breeds = None] *)
Definition initial_state : State := mkState None JNull [].

Definition M (A : Type) : Type := State -> Result A * State.

Definition ret {A : Type} (a : A) : M A := fun s => (Ok a, s).

Definition bind {A B : Type} (c : M A) (k : A -> M B) : M B :=
  fun s =>
    match c s with
    | (Ok a, s') => k a s'
    | (Raise e, s') => (Raise e, s')
    end.

Definition raise {A : Type} (e : Exn) : M A := fun s => (Raise e, s).

(** A pure computation that may raise. *)
Definition lift {A : Type} (r : Result A) : M A := fun s => (r, s).

(** [try: c except Exception as e: h(e)] *)
Definition try_catch {A : Type} (c : M A) (h : Exn -> M A) : M A :=
  fun s =>
    match c s with
    | (Ok a, s') => (Ok a, s')
    | (Raise e, s') => h e s'
    end.

Definition global_model : M (option Model) := fun s => (Ok (model s), s).
Definition global_breeds : M JSON := fun s => (Ok (breeds s), s).

(** Assignments under [global model, breeds]. *)
Definition set_model (m : option Model) : M unit :=
  fun s => (Ok tt, mkState m (breeds s) (trace s)).
Definition set_breeds (b : JSON) : M unit :=
  fun s => (Ok tt, mkState (model s) b (trace s)).

Definition emit (ev : Event) : M unit :=
  fun s => (Ok tt, mkState (model s) (breeds s) (trace s ++ [ev])).

Declare Scope py_scope.
Delimit Scope py_scope with py.
Notation "x <- c ;; k" := (bind c (fun x => k))
  (at level 61, c at next level, right associativity) : py_scope.
Notation "c ;;; k" := (bind c (fun _ => k))
  (at level 61, right associativity) : py_scope.
Local Open Scope py_scope.

(* ===================================================================== *)
(** ** [create_model.py] *)
(* ===================================================================== *)

Module CreateModelPy.

Definition IMG_SIZE : nat := 224.
Definition INPUT_SHAPE : list (option nat) :=
  [None; Some IMG_SIZE; Some IMG_SIZE; Some 3%nat].
Definition OUTPUT_SHAPE : nat := 120.
Definition MODEL_URL : string :=
  "https://kaggle.com/models/google/mobilenet-v2/TensorFlow2/100-224-feature-vector/1".

(** The layers and compile settings [create_model] hands to Keras. *)
Definition create_model (input_shape : list (option nat))
    (output_shape : nat) (model_url : string) : Architecture :=
  mkArchitecture
    [ InputLayer (tl input_shape);
      LambdaHubKerasLayer model_url;
      Dense output_shape "softmax" ]
    CategoricalCrossentropy
    Adam
    ["accuracy"].

(** [create_model()] with every argument at its default. *)
Definition create_model_default : Architecture :=
  create_model INPUT_SHAPE OUTPUT_SHAPE MODEL_URL.

End CreateModelPy.

(* ===================================================================== *)
(** ** [main.py] *)
(* ===================================================================== *)

(** The checkpoint [startup_event] looks for. *)
Definition checkpoint : string :=
  "20250619-08341750322059-full-dataset-dog-mobilenetv2-cj.weights.h5".

Section MainPy.

Variable E : Env.

Definition IMG_SIZE : nat := 224.

(** The expression every endpoint shows a breed with:
    [s.replace("_", " ").title()]. *)
Definition display (s : string) : string :=
  str_title E (PyStr.replace_underscore s).

(** [x.replace("_", " ").title()]: only a [str] has these methods. *)
Definition py_display (x : JSON) : Result string :=
  match x with
  | JStr s => Ok (display s)
  | _ => Raise (PyExc AttributeError "object has no attribute 'replace'")
  end.

(** [load_breeds]: only [FileNotFoundError] is caught. *)
Definition load_breeds : M JSON :=
  try_catch (lift (open_breeds_json E))
    (fun e =>
       match e with
       | PyExc FileNotFoundError _ => ret (JInt (-1))
       | _ => raise e
       end).

(** The layers and compile settings for [n] output units. *)
Definition main_architecture (n : nat) : Architecture :=
  let INPUT_SHAPE := [None; Some IMG_SIZE; Some IMG_SIZE; Some 3%nat] in
  let OUTPUT_SHAPE := n in
  let MODEL_URL :=
    "https://kaggle.com/models/google/mobilenet-v2/TensorFlow2/100-224-feature-vector/1" in
  mkArchitecture
    [ InputLayer (tl INPUT_SHAPE);
      LambdaHubKerasLayer MODEL_URL;
      Dense OUTPUT_SHAPE "softmax" ]
    CategoricalCrossentropy
    Adam
    ["accuracy"].

(** [create_model]: [OUTPUT_SHAPE = len(breeds)] reads the global. *)
Definition create_model : M Model :=
  b <- global_breeds ;;
  n <- lift (py_len b) ;;
  let a := main_architecture n in
  lift (keras_build E a) ;;;
  ret (mkModel a Untrained).

(** [load_trained_model] *)
Definition load_trained_model (weights_path : string) : M (option Model) :=
  try_catch
    (m <- create_model ;;
     w <- lift (keras_load_weights E (arch m) weights_path) ;;
     ret (Some (mkModel (arch m) (Trained w))))
    (fun _ => ret None).

(** [preprocess_image] *)
Definition preprocess_image (image : Image) : Tensor :=
  let image :=
    if negb (String.eqb (mode image) "RGB") then pil_convert_RGB E image
    else image in
  let image := pil_resize E (IMG_SIZE, IMG_SIZE) image in
  let img_array := Np.scale255 (data image) in
  Np.expand_dims0 img_array.

(** [get_pred_label]: [np.argmax] flattens its argument. *)
Definition get_pred_label (prediction_probabilities : list (list Q))
  : M JSON :=
  b <- global_breeds ;;
  i <- lift (Np.argmax (concat prediction_probabilities)) ;;
  lift (py_getitem b i).

(** [a[0]] on the batch axis. *)
Definition row0 (a : list (list Q)) : Result (list Q) :=
  match a with
  | r :: _ => Ok r
  | [] => Raise (PyExc IndexError "index 0 is out of bounds for axis 0")
  end.

Definition prediction_entry (breed : string) (confidence : Q) : JSON :=
  JObj [("breed", JStr breed); ("confidence", JFloat confidence)].

(** [get_top_predictions] *)
Definition get_top_predictions (prediction_probabilities : list (list Q))
    (top_k : nat) : M (list JSON) :=
  b <- global_breeds ;;
  p0 <- lift (row0 prediction_probabilities) ;;
  let top_indices := rev (Np.last_k top_k (np_argsort E p0)) in
  lift (map_result
          (fun idx =>
             match py_getitem b idx with
             | Raise e => Raise e
             | Ok x =>
                 match py_display x with
                 | Raise e => Raise e
                 | Ok d =>
                     match nth_error p0 idx with
                     | Some c => Ok (prediction_entry d c)
                     | None =>
                         Raise (PyExc IndexError "index out of bounds")
                     end
                 end
             end)
          top_indices).

(** The only path [startup_event] tries. *)
Definition weights_paths : list string := [checkpoint].

(** The [for weights_path in weights_paths] loop; the result is
    [model_loaded].  [model] is assigned whatever
    [load_trained_model] returns, [None] included. *)
Fixpoint try_weights (paths : list string) : M bool :=
  match paths with
  | [] => ret false
  | weights_path :: rest =>
      if os_path_exists E weights_path then
        m <- load_trained_model weights_path ;;
        set_model m ;;;
        match m with
        | Some _ => ret true
        | None => try_weights rest
        end
      else try_weights rest
  end.

(** [startup_event] *)
Definition startup_event : M unit :=
  b <- load_breeds ;;
  set_breeds b ;;;
  lift (py_len b) ;;;
  model_loaded <- try_weights weights_paths ;;
  if negb model_loaded then
    m <- create_model ;;
    set_model (Some m)
  else ret tt.

Definition is_some {A : Type} (o : option A) : bool :=
  match o with Some _ => true | None => false end.

(** [GET /] *)
Definition read_root : M JSON :=
  m <- global_model ;;
  b <- global_breeds ;;
  n <- (if py_truthy b then lift (py_len b) else ret 0%nat) ;;
  ret (JObj
    [ ("message", JStr "Dog Breed Predictor API with Real ML Model!");
      ("status", JStr "healthy");
      ("model_loaded", JBool (is_some m));
      ("total_breeds", JInt (Z.of_nat n));
      ("version", JStr "2.0.0") ]).

(** [GET /health] *)
Definition health_check : M JSON :=
  m <- global_model ;;
  ret (JObj
    [ ("status", JStr "healthy");
      ("service", JStr "dog-breed-predictor");
      ("model_status", JStr (if is_some m then "loaded" else "not_loaded"));
      ("gpu_available", JBool (0 <? tf_gpu_count E)%nat);
      ("tensorflow_version", JStr (tf_version E)) ]).

(** [[breed.replace("_", " ").title() for breed in v]] *)
Definition display_all (v : JSON) : Result (list JSON) :=
  match py_iter v with
  | Raise e => Raise e
  | Ok items =>
      map_result
        (fun breed =>
           match py_display breed with
           | Raise e => Raise e
           | Ok d => Ok (JStr d)
           end)
        items
  end.

(** [GET /model/info] *)
Definition model_info : M JSON :=
  m <- global_model ;;
  match m with
  | None => raise (HTTPException 503 "Model not loaded")
  | Some mdl =>
      try_catch
        (info <- lift (keras_summary E mdl) ;;
         let '(input_shape, output_shape, total_parameters) := info in
         b <- global_breeds ;;
         n <- lift (py_len b) ;;
         first10 <- lift (py_slice_to b 10) ;;
         sample <- lift (display_all first10) ;;
         ret (JObj
           [ ("model_loaded", JBool true);
             ("input_shape", JStr input_shape);
             ("output_shape", JStr output_shape);
             ("total_parameters", JInt (Z.of_nat total_parameters));
             ("total_breeds", JInt (Z.of_nat n));
             ("image_size", JInt (Z.of_nat IMG_SIZE));
             ("sample_breeds", JArr sample) ]))
        (fun e =>
           raise (HTTPException 500
                    ("Error getting model info: " ++ exn_str e)))
  end.

(** [GET /breeds] *)
Definition get_breeds : M JSON :=
  b <- global_breeds ;;
  n <- lift (py_len b) ;;
  names <- lift (display_all b) ;;
  ret (JObj
    [ ("total_breeds", JInt (Z.of_nat n));
      ("breeds", JArr names) ]).

(** [round(x)] to the nearest integer, ties to even. *)
Definition round_half_even (q : Q) : Z :=
  let f := Qfloor q in
  let r := (q - inject_Z f)%Q in
  if Np.gtb r (1#2) then (f + 1)%Z
  else if Qeq_bool r (1#2) then (if Z.even f then f else (f + 1)%Z)
  else f.

(** [round(x, digits)] *)
Definition py_round (q : Q) (digits : nat) : Q :=
  let scale := inject_Z (10 ^ Z.of_nat digits) in
  (inject_Z (round_half_even (q * scale)) / scale)%Q.

Definition opt_str (o : option string) : JSON :=
  match o with Some s => JStr s | None => JNull end.

(** [file.content_type.startswith('image/')]: [content_type] is
    [Optional[str]], and [None] has no [startswith]. *)
Definition content_type_is_image (file : UploadFile) : Result bool :=
  match content_type file with
  | Some ct => Ok (String.prefix "image/" ct)
  | None =>
      Raise (PyExc AttributeError
               "'NoneType' object has no attribute 'startswith'")
  end.

(** [model.predict(x, verbose=0)] on the global [model]. *)
Definition model_predict (x : Tensor) : M (list (list Q)) :=
  m <- global_model ;;
  match m with
  | Some mdl => emit EvPredict ;;; lift (keras_predict E mdl x)
  | None =>
      raise (PyExc AttributeError
               "'NoneType' object has no attribute 'predict'")
  end.

(** The [try] block of [predict_breed]. *)
Definition predict_body (file : UploadFile) : M JSON :=
  emit EvFileRead ;;;
  image_data <- lift (read file) ;;
  emit EvImageOpen ;;;
  image <- lift (pil_open E image_data) ;;
  let '(width, height) := size image in
  let format_type := format image in
  let processed_image := preprocess_image image in
  predictions <- model_predict processed_image ;;
  top_breed <- get_pred_label predictions ;;
  p0 <- lift (row0 predictions) ;;
  confidence <- lift (Np.max p0) ;;
  top_3 <- get_top_predictions predictions 3 ;;
  breed <- lift (py_display top_breed) ;;
  b <- global_breeds ;;
  n <- lift (py_len b) ;;
  ret (JObj
    [ ("success", JBool true);
      ("filename", opt_str (filename file));
      ("image_info", JObj
         [ ("width", JInt (Z.of_nat width));
           ("height", JInt (Z.of_nat height));
           ("format", opt_str format_type);
           ("size_kb",
            JFloat (py_round
                      (inject_Z (Z.of_nat (List.length image_data)) / 1024)
                      2)) ]);
      ("prediction", JObj
         [ ("breed", JStr breed);
           ("confidence", JFloat confidence);
           ("confidence_percentage",
            JFloat (py_round (confidence * 100) 1)) ]);
      ("top_3_predictions", JArr top_3);
      ("model_info", JObj
         [ ("model_type", JStr "MobileNetV2 + Custom Dense Layer");
           ("total_breeds", JInt (Z.of_nat n));
           ("image_size_used", JInt (Z.of_nat IMG_SIZE));
           ("model_trained", JBool (Np.gtb confidence (1#10))) ]) ]).

(** [POST /predict] *)
Definition predict_breed (file : UploadFile) : M JSON :=
  m <- global_model ;;
  match m with
  | None => raise (HTTPException 503 "Model not loaded")
  | Some _ =>
      is_image <- lift (content_type_is_image file) ;;
      if negb is_image then
        raise (HTTPException 400 "File must be an image (jpg, png, etc.)")
      else
        try_catch (predict_body file)
          (fun e =>
             raise (HTTPException 500
                      ("Error processing image: " ++ exn_str e)))
  end.

(** *** The HTTP layer *)

Inductive Request : Type :=
| GetRoot
| GetHealth
| GetModelInfo
| GetBreeds
| PostPredict (file : UploadFile).

Record Response : Type := mkResponse {
  status : nat;
  body : JSON
}.

(** FastAPI answers a returned value with 200, an [HTTPException] with
    its status and detail, and any other exception with 500. *)
Definition respond (r : Result JSON) : Response :=
  match r with
  | Ok b => mkResponse 200 b
  | Raise (HTTPException code detail) =>
      mkResponse code (JObj [("detail", JStr detail)])
  | Raise (PyExc _ _) => mkResponse 500 (JStr "Internal Server Error")
  end.

Definition handler (req : Request) : M JSON :=
  match req with
  | GetRoot => read_root
  | GetHealth => health_check
  | GetModelInfo => model_info
  | GetBreeds => get_breeds
  | PostPredict file => predict_breed file
  end.

(** One request against the running process. *)
Definition serve (req : Request) (s : State) : Response * State :=
  let '(r, s') := handler req s in (respond r, s').

(** A sequence of requests, one after the other. *)
Fixpoint serve_all (reqs : list Request) (s : State) : State :=
  match reqs with
  | [] => s
  | req :: rest => serve_all rest (snd (serve req s))
  end.

End MainPy.

(** A session: the answers to a sequence of requests handled one after
    the other, each on the state the one before it left. *)
Fixpoint serve_each (E : Env) (reqs : list Request) (s : State)
  : list Response :=
  match reqs with
  | [] => []
  | req :: rest =>
      fst (serve E req s) :: serve_each E rest (snd (serve E req s))
  end.

(* ===================================================================== *)
(** ** The display form, said position by position *)
(* ===================================================================== *)

Definition is_ascii_char (c : ascii) : bool := (nat_of_ascii c <? 128)%nat.

Fixpoint is_ascii (s : string) : bool :=
  match s with
  | EmptyString => true
  | String c r => is_ascii_char c && is_ascii r
  end.

Definition letter (c : ascii) : bool :=
  PyStr.is_lower c || PyStr.is_upper c.

(** Position [i] of [s] starts a word: it is the first position, or the
    character before it is not a letter. *)
Definition starts_word (s : string) (i : nat) : bool :=
  match i with
  | O => true
  | S j =>
      match String.get j s with
      | Some before => negb (letter before)
      | None => true
      end
  end.

(** [t] is [s] title-cased: the same characters, each letter in upper
    case where a word starts and in lower case elsewhere. *)
Definition titled (s t : string) : Prop :=
  String.length t = String.length s /\
  forall i c, String.get i s = Some c ->
    String.get i t =
      Some (if starts_word s i then PyStr.to_upper c else PyStr.to_lower c).

(** What Python promises of [str.title] on ASCII strings. *)
Definition title_ok (f : string -> string) : Prop :=
  forall s, is_ascii s = true -> titled s (f s).

(** [r] is [name] with every underscore replaced by a space. *)
Definition spaced (name r : string) : Prop :=
  String.length r = String.length name /\
  forall i c, String.get i name = Some c ->
    String.get i r = Some (if Ascii.eqb c "_"%char then " "%char else c).

(** [d] is [name] with underscores replaced by spaces and title-cased. *)
Definition shown_as (name d : string) : Prop :=
  String.length d = String.length name /\
  forall i c, String.get i name = Some c ->
    String.get i d =
      Some (if Ascii.eqb c "_"%char then " "%char
            else if starts_word name i then PyStr.to_upper c
            else PyStr.to_lower c).

(** [d] is what an endpoint shows for [name]: Python's [title] of the
    name with its underscores replaced by spaces, which for an ASCII name
    is the string [shown_as] describes. *)
Definition displayed (E : Env) (name d : string) : Prop :=
  (exists r, spaced name r /\ d = str_title E r) /\
  (is_ascii name = true -> shown_as name d).

(* ===================================================================== *)
(** ** Shapes and ranges of tensors *)
(* ===================================================================== *)

(** [t.shape == (d0, d1, d2, d3)] *)
Definition has_shape (d0 d1 d2 d3 : nat) (t : Tensor) : bool :=
  (List.length t =? d0)%nat &&
  forallb (fun a =>
    (List.length a =? d1)%nat &&
    forallb (fun r =>
      (List.length r =? d2)%nat &&
      forallb (fun px => (List.length px =? d3)%nat) r) a) t.

(** [0 <= q <= 1] *)
Definition in_unit (q : Q) : bool := Qle_bool 0 q && Qle_bool q 1.

Definition all_components (f : Q -> bool) (t : Tensor) : bool :=
  forallb (forallb (forallb (forallb f))) t.

(** The image [preprocess_image] turns into an array: converted to RGB
    when its mode is another one, then resized. *)
Definition prepared (E : Env) (image : Image) : Image :=
  pil_resize E (IMG_SIZE, IMG_SIZE)
    (if String.eqb (mode image) "RGB" then image
     else pil_convert_RGB E image).

(* ===================================================================== *)
(** ** Computations that only read the globals *)
(* ===================================================================== *)

(** Two states agree when they hold the same [model] and [breeds]. *)
Definition agree (s1 s2 : State) : Prop :=
  model s1 = model s2 /\ breeds s1 = breeds s2.

(** A computation is stateless when its outcome is determined by the
    globals it starts from and it hands the globals back as it found
    them. *)
Definition stateless {A : Type} (c : M A) : Prop :=
  forall s1 s2, agree s1 s2 ->
    fst (c s1) = fst (c s2) /\ agree (snd (c s1)) s1.

(* ===================================================================== *)
(** ** Reading a response *)
(* ===================================================================== *)

(** [p[i]], the confidence of output unit [i]. *)
Definition val (p : list Q) (i : nat) : Q := nth i p 0%Q.

(** [d[key]] on a response object. *)
Fixpoint lookup (key : string) (fields : list (string * JSON))
  : option JSON :=
  match fields with
  | [] => None
  | (k, v) :: r => if String.eqb k key then Some v else lookup key r
  end.

Definition field (key : string) (v : JSON) : option JSON :=
  match v with
  | JObj fields => lookup key fields
  | _ => None
  end.

(** The entry [get_top_predictions] builds for position [i]. *)
Definition entry_at (E : Env) (bs : list string) (p : list Q) (i : nat)
  : JSON :=
  JObj [("breed", JStr (display E (nth i bs "")));
        ("confidence", JFloat (val p i))].

(** A computation that never assigns [breeds]. *)
Definition keeps_breeds {A : Type} (c : M A) : Prop :=
  forall s, breeds (snd (c s)) = breeds s.

(* ===================================================================== *)
(** ** Kinds of values, exceptions and requests *)
(* ===================================================================== *)

Definition is_str (v : JSON) : bool :=
  match v with JStr _ => true | _ => false end.

(** An exception that is not an [HTTPException]. *)
Definition is_pyexc (e : Exn) : bool :=
  match e with PyExc _ _ => true | HTTPException _ _ => false end.

(** The outcome carries no [HTTPException]. *)
Definition plain {A : Type} (r : Result A) : bool :=
  match r with Ok _ => true | Raise e => is_pyexc e end.

Definition is_file_not_found (e : Exn) : bool :=
  match e with PyExc FileNotFoundError _ => true | _ => false end.

(** The [GET] endpoints. *)
Definition is_get (req : Request) : bool :=
  match req with PostPredict _ => false | _ => true end.

(** ["_" in s] *)
Fixpoint has_underscore (s : string) : bool :=
  match s with
  | EmptyString => false
  | String c r => Ascii.eqb c "_"%char || has_underscore r
  end.

(* ===================================================================== *)
(** ** A small concrete environment *)
(* ===================================================================== *)

(** Used to run the definitions: four breeds, a model that always answers
    with the same distribution, and simple stand-ins for PIL. *)
Module Demo.

Definition breed_names : list string :=
  ["golden_retriever"; "pug"; "border_collie"; "shih-tzu"].

Definition clamp (z : Z) : Z := Z.max 0 (Z.min 255 z).

(** Any pixel as three 8-bit bands. *)
Definition rgb_of (px : list Z) : list Z :=
  match px with
  | [] => [0; 0; 0]%Z
  | [l] => [clamp l; clamp l; clamp l]
  | [l; _] => [clamp l; clamp l; clamp l]
  | r :: g :: b :: _ => [clamp r; clamp g; clamp b]
  end.

Definition pixel_at (d : list (list (list Z))) (r c : nat) : list Z :=
  nth c (nth r d []) [].

(** A [w] by [h] grid whose pixel at row [r], column [c] is [f r c]. *)
Definition grid (w h : nat) (f : nat -> nat -> list Z)
  : list (list (list Z)) :=
  map (fun r => map (fun c => rgb_of (f r c)) (seq 0 w)) (seq 0 h).

Definition convert_RGB (im : Image) : Image :=
  mkImage "RGB" (size im) (format im)
    (grid (fst (size im)) (snd (size im)) (pixel_at (data im))).

(** Nearest-neighbour resampling. *)
Definition resize (wh : nat * nat) (im : Image) : Image :=
  let '(w, h) := wh in
  let '(w0, h0) := size im in
  mkImage (mode im) (w, h) (format im)
    (grid w h (fun r c => pixel_at (data im) (r * h0 / h) (c * w0 / w))).

(** A 2x2 greyscale picture made from the first four bytes. *)
Definition open_image (bytes : list Z) : Result Image :=
  match bytes with
  | a :: b :: c :: d :: _ =>
      Ok (mkImage "L" (2, 2)%nat (Some "PNG") [[[a]; [b]]; [[c]; [d]]])
  | _ => Raise (PyExc LibraryError "cannot identify image file")
  end.

(** A picture two pixels wide and one high, already in mode RGB. *)
Definition rgb_image : Image :=
  mkImage "RGB" (2, 1)%nat (Some "JPEG")
    [[[255; 128; 0]; [12; 34; 56]]]%Z.

Definition probabilities : list Q := [1#10; 3#5; 1#5; 1#10]%Q.

(** An environment from the five answers that vary between runs: what
    opening [breeds.json] gives, whether the checkpoint exists, what
    building and loading give, and what the model predicts. *)
Definition mk_env (breeds_file : Result JSON) (checkpoint : bool)
    (build : Result unit) (weights : Result Weights)
    (out : list (list Q)) : Env :=
  mkEnv
    breeds_file
    (fun _ => checkpoint)
    (fun _ => build)
    (fun _ _ => weights)
    (fun _ _ => Ok out)
    (fun _ => Ok ("(None, 224, 224, 3)", "(None, 4)", 4100%nat))
    0
    "2.15.0"
    open_image
    convert_RGB
    resize
    Np.argsort_stable
    PyStr.title.

Definition env : Env :=
  mk_env (Ok (JArr (map JStr breed_names))) true (Ok tt)
         (Ok [1#2; 1#3]%Q) [probabilities].

Definition upload : UploadFile :=
  mkUploadFile (Some "dog.png") (Some "image/png") (Ok [10; 20; 30; 300]%Z).

(** A service with two breeds whose model cannot tell them apart. *)
Definition two_breeds : list string := ["golden_retriever"; "pug"].

Definition tie_env : Env :=
  mk_env (Ok (JArr (map JStr two_breeds))) true (Ok tt)
         (Ok [1#2; 1#3]%Q) [[1#2; 1#2]%Q].

Definition tie_running : State :=
  snd (startup_event tie_env initial_state).

(** The state after a successful start-up in [env]. *)
Definition running : State := snd (startup_event env initial_state).

(** No checkpoint on disk. *)
Definition no_checkpoint_env : Env :=
  mk_env (Ok (JArr (map JStr breed_names))) false (Ok tt)
         (Ok [1#2; 1#3]%Q) [probabilities].

(** A checkpoint that cannot be loaded. *)
Definition bad_checkpoint_env : Env :=
  mk_env (Ok (JArr (map JStr breed_names))) true (Ok tt)
         (Raise (PyExc ValueError "shape mismatch")) [probabilities].


(** [breeds.json] is missing. *)
Definition no_breeds_env : Env :=
  mk_env (Raise (PyExc FileNotFoundError "breeds.json")) true (Ok tt)
         (Ok [1#2; 1#3]%Q) [probabilities].

(** [breeds.json] holds an object, not an array. *)
Definition object_breeds_env : Env :=
  mk_env (Ok (JObj [("pug", JInt 0); ("beagle", JInt 1)])) true (Ok tt)
         (Ok [1#2; 1#3]%Q) [[1#2; 1#2]%Q].

(** A process whose [breeds] holds 120 names. *)
Definition full_state : State :=
  mkState None (JArr (repeat (JStr "pug") 120)) [].

(** [breeds.json] does not hold JSON. *)
Definition bad_json_env : Env :=
  mk_env (Raise (PyExc JSONDecodeError "Expecting value")) true (Ok tt)
         (Ok [1#2; 1#3]%Q) [probabilities].

(** [breeds.json] holds an array with a number in it. *)
Definition mixed_breeds_env : Env :=
  mk_env (Ok (JArr [JStr "pug"; JInt 7])) true (Ok tt)
         (Ok [1#2; 1#3]%Q) [[1#2; 1#2]%Q].

(** What [open_image] makes of [upload]. *)
Definition upload_image : Image :=
  mkImage "L" (2, 2)%nat (Some "PNG") [[[10]; [20]]; [[30]; [300]]]%Z.

(** An upload too short to be a picture. *)
Definition short_upload : UploadFile :=
  mkUploadFile (Some "tiny.png") (Some "image/png") (Ok [137; 80]%Z).

(** An upload whose part carries no [Content-Type] header. *)
Definition untyped_upload : UploadFile :=
  mkUploadFile (Some "dog.jpg") None (Ok [10; 20; 30; 40]%Z).

End Demo.

(* ===================================================================== *)
(** ** Facts about the numpy operations *)
(* ===================================================================== *)

Section NpFacts.

Lemma gtb_true (a b : Q) : Np.gtb a b = true -> (b < a)%Q.
Proof.
  unfold Np.gtb. intros H. apply negb_true_iff in H.
  apply Qnot_le_lt. intros Hle. apply Qle_bool_iff in Hle. congruence.
Qed.

Lemma gtb_false (a b : Q) : Np.gtb a b = false -> (a <= b)%Q.
Proof.
  unfold Np.gtb. intros H. apply negb_false_iff in H.
  now apply Qle_bool_iff.
Qed.

(** The scan keeps three facts about the prefix [pre] already seen: the
    best index holds the best value, nothing seen is larger, and
    everything before the best index is strictly smaller. *)
Lemma argmax_from_spec (l : list Q) :
  forall (pre : list Q) (bi : nat) (b : Q),
    nth_error pre bi = Some b ->
    (forall j x, nth_error pre j = Some x -> (x <= b)%Q) ->
    (forall j x, (j < bi)%nat -> nth_error pre j = Some x -> (x < b)%Q) ->
    let r := Np.argmax_from bi b (List.length pre) l in
    let m := Np.max_from b l in
    nth_error (pre ++ l) r = Some m /\
    (forall j x, nth_error (pre ++ l) j = Some x -> (x <= m)%Q) /\
    (forall j x, (j < r)%nat -> nth_error (pre ++ l) j = Some x -> (x < m)%Q).
Proof.
  induction l as [|x l IH]; intros pre bi b Hb Hle Hlt; cbn zeta.
  - cbn [Np.argmax_from Np.max_from]. rewrite app_nil_r. auto.
  - cbn [Np.argmax_from Np.max_from].
    assert (Hcons : pre ++ x :: l = (pre ++ [x]) ++ l)
      by (rewrite <- app_assoc; reflexivity).
    assert (Hlen : S (List.length pre) = List.length (pre ++ [x]))
      by (rewrite length_app; cbn; lia).
    rewrite Hcons, Hlen.
    destruct (Np.gtb x b) eqn:Hg.
    + apply gtb_true in Hg.
      rewrite <- Hlen.
      replace (Np.argmax_from (List.length pre) x (S (List.length pre)) l)
        with (Np.argmax_from (List.length pre) x (List.length (pre ++ [x])) l)
        by (rewrite <- Hlen; reflexivity).
      apply IH.
      * rewrite nth_error_app2 by lia. rewrite Nat.sub_diag. reflexivity.
      * intros j y Hj.
        destruct (Nat.lt_ge_cases j (List.length pre)) as [Hjl|Hjl].
        -- rewrite nth_error_app1 in Hj by assumption.
           apply Qlt_le_weak. eapply Qle_lt_trans; [eapply Hle; eauto|assumption].
        -- rewrite nth_error_app2 in Hj by assumption.
           destruct (j - List.length pre)%nat as [|k]; cbn in Hj.
           ++ injection Hj as <-. apply Qle_refl.
           ++ destruct k; discriminate.
      * intros j y Hjl Hj.
        rewrite nth_error_app1 in Hj by assumption.
        eapply Qle_lt_trans; [eapply Hle; eauto|assumption].
    + apply gtb_false in Hg.
      apply IH.
      * rewrite nth_error_app1; [assumption|].
        apply nth_error_Some. congruence.
      * intros j y Hj.
        destruct (Nat.lt_ge_cases j (List.length pre)) as [Hjl|Hjl].
        -- rewrite nth_error_app1 in Hj by assumption. eauto.
        -- rewrite nth_error_app2 in Hj by assumption.
           destruct (j - List.length pre)%nat as [|k]; cbn in Hj.
           ++ injection Hj as <-. assumption.
           ++ destruct k; discriminate.
      * intros j y Hjl Hj.
        assert (bi < List.length pre)%nat
          by (apply nth_error_Some; congruence).
        rewrite nth_error_app1 in Hj by lia. eauto.
Qed.

(** [np.argmax] of a non-empty vector is the first position of its
    maximum, and [np.max] is the value there. *)
Lemma argmax_spec (p : list Q) :
  p <> [] ->
  exists i m,
    Np.argmax p = Ok i /\ Np.max p = Ok m /\
    nth_error p i = Some m /\
    (forall j x, nth_error p j = Some x -> (x <= m)%Q) /\
    (forall j x, (j < i)%nat -> nth_error p j = Some x -> (x < m)%Q).
Proof.
  destruct p as [|x l]; [congruence|]. intros _.
  exists (Np.argmax_from 0 x 1 l), (Np.max_from x l).
  split; [reflexivity|]. split; [reflexivity|].
  apply (@argmax_from_spec l [x] 0%nat x).
  - reflexivity.
  - intros [|[|j]] y Hj; cbn in Hj; try discriminate.
    injection Hj as <-. apply Qle_refl.
  - intros j y Hj. lia.
Qed.

End NpFacts.

(* ===================================================================== *)
(** ** Runs on concrete inputs *)
(* ===================================================================== *)

Example display_golden : PyStr.display "golden_retriever" = "Golden Retriever".
Proof. reflexivity. Qed.

Example display_mixed : PyStr.display "shih-tzu_MIX" = "Shih-Tzu Mix".
Proof. reflexivity. Qed.

Example argmax_first_of_ties :
  Np.argmax [1#4; 3#8; 3#8]%Q = Ok 1%nat.
Proof. reflexivity. Qed.

Example argsort_stable_ties :
  Np.argsort_stable [1#2; 1#2; 0]%Q = [2; 0; 1]%nat.
Proof. reflexivity. Qed.

Example demo_startup :
  breeds Demo.running = JArr (map JStr Demo.breed_names) /\
  model Demo.running =
    Some (mkModel (main_architecture 4) (Trained [1#2; 1#3]%Q)).
Proof. split; reflexivity. Qed.

Example demo_predict_status :
  status (fst (serve Demo.env (PostPredict Demo.upload) Demo.running)) = 200%nat.
Proof. vm_compute. reflexivity. Qed.

(* ===================================================================== *)
(** ** What the display form is *)
(* ===================================================================== *)

Section DisplayForm.

Lemma title_from_length (s : string) :
  forall b, String.length (PyStr.title_from b s) = String.length s.
Proof.
  induction s as [|c s IH]; intros b; cbn [PyStr.title_from];
    [reflexivity|].
  destruct (PyStr.is_lower c); [|destruct (PyStr.is_upper c)];
    cbn [String.length]; now rewrite IH.
Qed.

Lemma replace_underscore_length (s : string) :
  String.length (PyStr.replace_underscore s) = String.length s.
Proof. induction s as [|c s IH]; cbn; [reflexivity|now rewrite IH]. Qed.

Lemma to_lower_of_lower (c : ascii) :
  PyStr.is_lower c = true -> PyStr.to_lower c = c.
Proof.
  destruct c as [[] [] [] [] [] [] [] []]; vm_compute;
    intros H; try discriminate H; reflexivity.
Qed.

Lemma to_upper_of_not_lower (c : ascii) :
  PyStr.is_lower c = false -> PyStr.to_upper c = c.
Proof. unfold PyStr.to_upper. now intros ->. Qed.

Lemma to_lower_of_not_upper (c : ascii) :
  PyStr.is_upper c = false -> PyStr.to_lower c = c.
Proof. unfold PyStr.to_lower. now intros ->. Qed.

(** The character [title_from] writes for [c]. *)
Lemma title_char (b : bool) (c : ascii) :
  (if PyStr.is_lower c then (if b then c else PyStr.to_upper c)
   else if PyStr.is_upper c then (if b then PyStr.to_lower c else c)
   else c) =
  (if negb b then PyStr.to_upper c else PyStr.to_lower c).
Proof.
  destruct (PyStr.is_lower c) eqn:Hl.
  - destruct b; cbn [negb]; [now rewrite to_lower_of_lower|reflexivity].
  - rewrite (to_upper_of_not_lower c Hl).
    destruct (PyStr.is_upper c) eqn:Hu; destruct b; cbn [negb];
      try reflexivity; now rewrite to_lower_of_not_upper.
Qed.

Lemma title_from_cons (b : bool) (c : ascii) (r : string) :
  PyStr.title_from b (String c r) =
    String (if negb b then PyStr.to_upper c else PyStr.to_lower c)
           (PyStr.title_from (letter c) r).
Proof.
  cbn [PyStr.title_from]. rewrite <- title_char. unfold letter.
  destruct (PyStr.is_lower c); [reflexivity|].
  destruct (PyStr.is_upper c); reflexivity.
Qed.

(** [title_from], position by position; [b] says whether a letter
    precedes the string. *)
Lemma title_from_get (s : string) :
  forall (b : bool) (i : nat) (c : ascii),
    String.get i s = Some c ->
    String.get i (PyStr.title_from b s) =
      Some (if match i with
               | O => negb b
               | S _ => starts_word s i
               end
            then PyStr.to_upper c else PyStr.to_lower c).
Proof.
  induction s as [|a r IH]; intros b i c Hi; [destruct i; discriminate|].
  rewrite title_from_cons.
  destruct i as [|j]; cbn [String.get] in *.
  - injection Hi as <-. reflexivity.
  - rewrite (IH (letter a) j c Hi).
    destruct j as [|k]; cbn [starts_word String.get]; reflexivity.
Qed.

Lemma title_titled (s : string) : titled s (PyStr.title s).
Proof.
  split; [apply title_from_length|].
  intros i c Hi. unfold PyStr.title. rewrite (@title_from_get s false i c Hi).
  destruct i; reflexivity.
Qed.

(** The ASCII title keeps Python's promise. *)
Lemma ascii_title_ok : title_ok PyStr.title.
Proof. intros s _. apply title_titled. Qed.

Lemma replace_get (s : string) :
  forall i c, String.get i s = Some c ->
    String.get i (PyStr.replace_underscore s) =
      Some (if Ascii.eqb c "_"%char then " "%char else c).
Proof.
  induction s as [|a r IH]; intros i c Hi; [destruct i; discriminate|].
  cbn [PyStr.replace_underscore].
  destruct i as [|j]; cbn [String.get] in *.
  - now injection Hi as <-.
  - now apply IH.
Qed.

Lemma replace_spaced (s : string) : spaced s (PyStr.replace_underscore s).
Proof. split; [apply replace_underscore_length|apply replace_get]. Qed.

Lemma replace_is_ascii (s : string) :
  is_ascii s = true -> is_ascii (PyStr.replace_underscore s) = true.
Proof.
  induction s as [|a r IH]; cbn [is_ascii PyStr.replace_underscore];
    [reflexivity|].
  intros H. apply andb_true_iff in H as [Ha Hr].
  rewrite (IH Hr), andb_true_r.
  destruct (Ascii.eqb a "_"%char); [reflexivity|exact Ha].
Qed.

Lemma letter_replaced (c : ascii) :
  letter (if Ascii.eqb c "_"%char then " "%char else c) = letter c.
Proof.
  destruct (Ascii.eqb c "_"%char) eqn:Hc; [|reflexivity].
  apply Ascii.eqb_eq in Hc. subst c. reflexivity.
Qed.

Lemma starts_word_replaced (s : string) (i : nat) :
  starts_word (PyStr.replace_underscore s) i = starts_word s i.
Proof.
  destruct i as [|j]; cbn [starts_word]; [reflexivity|].
  destruct (String.get j s) as [c|] eqn:Hj.
  - rewrite (@replace_get s j c Hj). now rewrite letter_replaced.
  - assert (Hn : String.get j (PyStr.replace_underscore s) = None).
    { revert j Hj. induction s as [|a r IH]; intros j Hj;
        [destruct j; reflexivity|].
      cbn [PyStr.replace_underscore].
      destruct j as [|k]; cbn [String.get] in *; [discriminate|].
      now apply IH. }
    now rewrite Hn.
Qed.

(** Title-casing after the replacement is [shown_as]. *)
Lemma titled_replaced (name d : string) :
  titled (PyStr.replace_underscore name) d -> shown_as name d.
Proof.
  intros [Hlen Hget]. split.
  - now rewrite Hlen, replace_underscore_length.
  - intros i c Hi.
    rewrite (Hget i _ (@replace_get name i c Hi)), starts_word_replaced.
    destruct (Ascii.eqb c "_"%char); [|reflexivity].
    destruct (starts_word name i); reflexivity.
Qed.

(** What [display] returns is [displayed]. *)
Lemma display_displayed (E : Env) (name : string) :
  title_ok (str_title E) -> displayed E name (display E name).
Proof.
  intros Hok. split.
  - exists (PyStr.replace_underscore name).
    split; [apply replace_spaced|reflexivity].
  - intros Ha. apply titled_replaced. apply Hok.
    now apply replace_is_ascii.
Qed.

(** A string is the characters it holds. *)
Lemma string_by_get (a : string) :
  forall b, String.length a = String.length b ->
    (forall i c, String.get i a = Some c -> String.get i b = Some c) ->
    a = b.
Proof.
  induction a as [|x a IH]; intros [|y b] Hlen Hget; try discriminate;
    [reflexivity|].
  pose proof (Hget 0%nat x eq_refl) as H0. cbn in H0. injection H0 as <-.
  f_equal. apply IH; [now injection Hlen|].
  intros i c Hi. exact (Hget (S i) c Hi).
Qed.

(** On an ASCII name the display form is the ASCII one. *)
Lemma display_on_ascii (E : Env) (name : string) :
  title_ok (str_title E) -> is_ascii name = true ->
  display E name = PyStr.display name.
Proof.
  intros Hok Ha. unfold display, PyStr.display.
  destruct (Hok _ (replace_is_ascii name Ha)) as [Hlen Hget].
  destruct (title_titled (PyStr.replace_underscore name)) as [Hlen' Hget'].
  apply string_by_get; [congruence|].
  intros i c Hi.
  assert (Hin : (i < String.length (PyStr.replace_underscore name))%nat).
  { rewrite <- Hlen. clear - Hi.
    revert i Hi. generalize (str_title E (PyStr.replace_underscore name)).
    induction s as [|x s IH]; intros [|i] Hi; cbn in *;
      try discriminate; try lia.
    specialize (IH i Hi). lia. }
  destruct (String.get i (PyStr.replace_underscore name)) as [c0|] eqn:H0.
  - rewrite (Hget i c0 H0) in Hi. rewrite (Hget' i c0 H0). exact Hi.
  - exfalso. clear - H0 Hin.
    revert i H0 Hin. generalize (PyStr.replace_underscore name).
    induction s as [|x s IH]; intros [|i] H0 Hin; cbn in *;
      try discriminate; try lia.
    apply (IH i H0). lia.
Qed.

End DisplayForm.

(* ===================================================================== *)
(** ** Decoding a prediction into a label *)
(* ===================================================================== *)

(** C1.  With a list of breed names in [breeds] and a non-empty output
    vector [p] that has no more units than there are names,
    [get_pred_label] returns the name stored at position [np.argmax(p)]
    and leaves the state alone; that position holds a maximal value of
    [p], and every earlier position holds a strictly smaller one, so the
    label position is the position of the maximal output unit. *)
Theorem get_pred_label_is_argmax :
  forall (s : State) (bs : list string) (p : list Q),
    breeds s = JArr (map JStr bs) ->
    p <> [] ->
    (List.length p <= List.length bs)%nat ->
    exists (i : nat) (b : string) (m : Q),
      get_pred_label [p] s = (Ok (JStr b), s) /\
      Np.argmax p = Ok i /\
      nth_error bs i = Some b /\
      nth_error p i = Some m /\
      (forall j x, nth_error p j = Some x -> (x <= m)%Q) /\
      (forall j x, (j < i)%nat -> nth_error p j = Some x -> (x < m)%Q).
Proof.
  intros s bs p Hb Hne Hlen.
  destruct (argmax_spec Hne) as (i & m & Harg & _ & Hnth & Hmax & Hfirst).
  assert (Hi : (i < List.length bs)%nat).
  { apply Nat.lt_le_trans with (List.length p); [|assumption].
    apply nth_error_Some. congruence. }
  destruct (nth_error bs i) as [b|] eqn:Hbi;
    [|apply nth_error_None in Hbi; lia].
  exists i, b, m.
  repeat split; try assumption.
  unfold get_pred_label, bind, global_breeds, lift.
  cbn [concat]. rewrite app_nil_r, Harg, Hb.
  cbn [py_getitem]. rewrite nth_error_map, Hbi. reflexivity.
Qed.

Lemma get_pred_label_is_argmax_witness :
  exists (i : nat) (b : string) (m : Q),
    get_pred_label [Demo.probabilities] Demo.running = (Ok (JStr b), Demo.running) /\
    Np.argmax Demo.probabilities = Ok i /\
    nth_error Demo.breed_names i = Some b /\
    nth_error Demo.probabilities i = Some m /\
    (forall j x, nth_error Demo.probabilities j = Some x -> (x <= m)%Q) /\
    (forall j x, (j < i)%nat ->
                 nth_error Demo.probabilities j = Some x -> (x < m)%Q).
Proof.
  apply (@get_pred_label_is_argmax Demo.running Demo.breed_names
           Demo.probabilities).
  - reflexivity.
  - discriminate.
  - vm_compute. lia.
Defined.

(* ===================================================================== *)
(** ** Preprocessing *)
(* ===================================================================== *)

Section Preprocess.

Lemma forallb_map {A B : Type} (f : B -> bool) (g : A -> B) (l : list A) :
  forallb f (map g l) = forallb (fun x => f (g x)) l.
Proof. induction l as [|x l IH]; cbn; [reflexivity|now rewrite IH]. Qed.

Lemma forallb_impl {A : Type} (f g : A -> bool) (l : list A) :
  (forall x, f x = true -> g x = true) ->
  forallb f l = true -> forallb g l = true.
Proof.
  intros Hfg. induction l as [|x l IH]; cbn; [reflexivity|].
  intros H. apply andb_true_iff in H as [Hx Hl].
  rewrite (Hfg _ Hx), (IH Hl). reflexivity.
Qed.

(** A byte divided by 255 lies between 0 and 1. *)
Lemma byte_scaled_in_unit (v : Z) :
  is_byte v = true -> in_unit (inject_Z v / 255)%Q = true.
Proof.
  unfold is_byte, in_unit. intros H.
  apply andb_true_iff in H as [H0 H1].
  apply Z.leb_le in H0. apply Z.leb_le in H1.
  apply andb_true_iff; split; apply Qle_bool_iff;
    unfold Qle, Qdiv, Qmult, Qinv, inject_Z; cbn; lia.
Qed.

Lemma rgb8_scaled_shape (im : Image) :
  is_rgb8 im = true ->
  has_shape 1 (snd (size im)) (fst (size im)) 3
    (Np.expand_dims0 (Np.scale255 (data im))) = true.
Proof.
  unfold is_rgb8, has_shape, Np.expand_dims0, Np.scale255. intros H.
  apply andb_true_iff in H as [H Hrows].
  apply andb_true_iff in H as [_ Hh].
  cbn [List.length forallb]. rewrite length_map, Hh. cbn [andb Nat.eqb].
  rewrite andb_true_r, forallb_map.
  revert Hrows. apply forallb_impl. intros row Hrow.
  apply andb_true_iff in Hrow as [Hw Hpx].
  rewrite length_map, Hw, forallb_map. cbn [andb].
  revert Hpx. apply forallb_impl. intros px Hp.
  apply andb_true_iff in Hp as [H3 _].
  now rewrite length_map.
Qed.

Lemma rgb8_scaled_range (im : Image) :
  is_rgb8 im = true ->
  all_components in_unit
    (Np.expand_dims0 (Np.scale255 (data im))) = true.
Proof.
  unfold is_rgb8, all_components, Np.expand_dims0, Np.scale255. intros H.
  apply andb_true_iff in H as [_ Hrows].
  cbn [forallb]. rewrite andb_true_r, forallb_map.
  revert Hrows. apply forallb_impl. intros row Hrow.
  apply andb_true_iff in Hrow as [_ Hpx].
  rewrite forallb_map. revert Hpx. apply forallb_impl. intros px Hp.
  apply andb_true_iff in Hp as [_ Hb].
  rewrite forallb_map. revert Hb. apply forallb_impl.
  exact byte_scaled_in_unit.
Qed.

End Preprocess.

(** C2.  When PIL keeps its promises ([convert('RGB')] yields an 8-bit
    three-band image, [resize] yields one of the requested size) and an
    input image of mode RGB is such an image, [preprocess_image] returns a
    tensor of shape (1, 224, 224, 3) whose components all lie in [0, 1];
    the tensor is the one-element batch of the prepared image's band
    values, each divided by 255. *)
Theorem preprocess_image_shape_range :
  forall (E : Env) (image : Image),
    pil_ok E ->
    (mode image = "RGB" -> is_rgb8 image = true) ->
    has_shape 1 224 224 3 (preprocess_image E image) = true /\
    all_components in_unit (preprocess_image E image) = true /\
    preprocess_image E image =
      [map (map (map (fun v => (inject_Z v / 255)%Q)))
           (data (prepared E image))].
Proof.
  intros E image [Hconv Hres] Hin.
  assert (Heq : preprocess_image E image =
                Np.expand_dims0 (Np.scale255 (data (prepared E image)))).
  { unfold preprocess_image, prepared.
    destruct (String.eqb (mode image) "RGB"); reflexivity. }
  assert (Hsrc : is_rgb8 (if String.eqb (mode image) "RGB" then image
                          else pil_convert_RGB E image) = true).
  { destruct (String.eqb (mode image) "RGB") eqn:Hm.
    - apply Hin. now apply String.eqb_eq.
    - apply Hconv. }
  destruct (Hres (IMG_SIZE, IMG_SIZE) _ Hsrc) as [Hrgb Hsize].
  fold (prepared E image) in Hrgb, Hsize.
  rewrite Heq. split; [|split].
  - pose proof (rgb8_scaled_shape _ Hrgb) as Hs.
    rewrite Hsize in Hs. exact Hs.
  - now apply rgb8_scaled_range.
  - reflexivity.
Qed.

Section DemoPil.

Lemma clamp_is_byte (z : Z) : is_byte (Demo.clamp z) = true.
Proof.
  unfold is_byte, Demo.clamp.
  apply andb_true_iff; split; apply Z.leb_le; lia.
Qed.

Lemma rgb_of_ok (px : list Z) :
  ((List.length (Demo.rgb_of px) =? 3)%nat &&
   forallb is_byte (Demo.rgb_of px)) = true.
Proof.
  destruct px as [|a [|b [|c r]]]; cbn [Demo.rgb_of List.length forallb Nat.eqb];
    rewrite ?clamp_is_byte; reflexivity.
Qed.

Lemma grid_is_rgb8 (m : string) (fmt : option string) (w h : nat)
    (f : nat -> nat -> list Z) :
  m = "RGB" -> is_rgb8 (mkImage m (w, h) fmt (Demo.grid w h f)) = true.
Proof.
  intros ->. unfold is_rgb8, Demo.grid. cbn [mode size data fst snd].
  rewrite length_map, length_seq, Nat.eqb_refl. cbn [String.eqb andb].
  change (String.eqb "RGB" "RGB") with true. cbn [andb].
  rewrite forallb_map. apply forallb_forall. intros r _.
  rewrite length_map, length_seq, Nat.eqb_refl. cbn [andb].
  rewrite forallb_map. apply forallb_forall. intros c _.
  apply rgb_of_ok.
Qed.

Lemma demo_pil_ok : pil_ok Demo.env.
Proof.
  split.
  - intros [m [w h] fmt d]. unfold Demo.env, pil_convert_RGB, Demo.convert_RGB.
    cbn [size format data fst snd]. now apply grid_is_rgb8.
  - intros [w h] [m [w0 h0] fmt d] Hrgb.
    unfold Demo.env, pil_resize, Demo.resize. cbn [size format data mode].
    split; [|reflexivity].
    apply grid_is_rgb8.
    unfold is_rgb8 in Hrgb. cbn [mode] in Hrgb.
    apply andb_true_iff in Hrgb as [Hrgb _].
    apply andb_true_iff in Hrgb as [Hm _].
    now apply String.eqb_eq.
Qed.

End DemoPil.

Lemma preprocess_image_shape_range_witness :
  has_shape 1 224 224 3 (preprocess_image Demo.env Demo.rgb_image) = true /\
  all_components in_unit (preprocess_image Demo.env Demo.rgb_image) = true /\
  preprocess_image Demo.env Demo.rgb_image =
    [map (map (map (fun v => (inject_Z v / 255)%Q)))
         (data (prepared Demo.env Demo.rgb_image))].
Proof.
  apply (@preprocess_image_shape_range Demo.env Demo.rgb_image).
  - exact demo_pil_ok.
  - intros _. reflexivity.
Defined.

(* ===================================================================== *)
(** ** Request handlers leave the globals alone *)
(* ===================================================================== *)

Section Stateless.

Lemma agree_refl s : agree s s.
Proof. split; reflexivity. Qed.

Lemma agree_sym s1 s2 : agree s1 s2 -> agree s2 s1.
Proof. intros [? ?]; split; congruence. Qed.

Lemma agree_trans s1 s2 s3 : agree s1 s2 -> agree s2 s3 -> agree s1 s3.
Proof. intros [? ?] [? ?]; split; congruence. Qed.

Lemma stateless_ret {A} (a : A) : stateless (ret a).
Proof. intros s1 s2 _. split; [reflexivity|apply agree_refl]. Qed.

Lemma stateless_raise {A} (e : Exn) : stateless (@raise A e).
Proof. intros s1 s2 _. split; [reflexivity|apply agree_refl]. Qed.

Lemma stateless_lift {A} (r : Result A) : stateless (lift r).
Proof. intros s1 s2 _. split; [reflexivity|apply agree_refl]. Qed.

Lemma stateless_emit (ev : Event) : stateless (emit ev).
Proof. intros s1 s2 _. split; [reflexivity|]. split; reflexivity. Qed.

Lemma stateless_global_model : stateless global_model.
Proof.
  intros s1 s2 [Hm _]. cbn. split; [now rewrite Hm|apply agree_refl].
Qed.

Lemma stateless_global_breeds : stateless global_breeds.
Proof.
  intros s1 s2 [_ Hb]. cbn. split; [now rewrite Hb|apply agree_refl].
Qed.

Lemma stateless_bind {A B} (c : M A) (k : A -> M B) :
  stateless c -> (forall a, stateless (k a)) -> stateless (bind c k).
Proof.
  intros Hc Hk s1 s2 H12.
  destruct (Hc s1 s2 H12) as [Hr H1].
  destruct (Hc s2 s1 (agree_sym H12)) as [_ H2].
  unfold bind.
  destruct (c s1) as [r1 s1'], (c s2) as [r2 s2']. cbn in Hr, H1, H2.
  subst r2.
  destruct r1 as [a|e]; [|split; [reflexivity|assumption]].
  assert (H' : agree s1' s2').
  { eapply agree_trans; [eassumption|].
    eapply agree_trans; [eassumption|]. now apply agree_sym. }
  destruct (Hk a s1' s2' H') as [Hr' H1'].
  split; [assumption|]. eapply agree_trans; eassumption.
Qed.

Lemma stateless_try_catch {A} (c : M A) (h : Exn -> M A) :
  stateless c -> (forall e, stateless (h e)) -> stateless (try_catch c h).
Proof.
  intros Hc Hh s1 s2 H12.
  destruct (Hc s1 s2 H12) as [Hr H1].
  destruct (Hc s2 s1 (agree_sym H12)) as [_ H2].
  unfold try_catch.
  destruct (c s1) as [r1 s1'], (c s2) as [r2 s2']. cbn in Hr, H1, H2.
  subst r2.
  destruct r1 as [a|e]; [split; [reflexivity|assumption]|].
  assert (H' : agree s1' s2').
  { eapply agree_trans; [eassumption|].
    eapply agree_trans; [eassumption|]. now apply agree_sym. }
  destruct (Hh e s1' s2' H') as [Hr' H1'].
  split; [assumption|]. eapply agree_trans; eassumption.
Qed.

End Stateless.

Create HintDb stateless_db.
#[export] Hint Resolve stateless_ret stateless_raise stateless_lift
  stateless_emit stateless_global_model stateless_global_breeds
  : stateless_db.

(** Walks down a handler: binds and handlers structurally, branches by
    cases on what they inspect. *)
Ltac stateless_step :=
  match goal with
  | |- stateless (bind _ _) => apply stateless_bind; [|intros ?]
  | |- stateless (try_catch _ _) => apply stateless_try_catch; [|intros ?]
  | |- stateless (match ?x with _ => _ end) => destruct x
  | |- stateless _ => solve [auto with stateless_db]
  end.

Section Handlers.

Variable E : Env.

Lemma stateless_get_pred_label p : stateless (get_pred_label p).
Proof. unfold get_pred_label. repeat stateless_step. Qed.

Lemma stateless_get_top_predictions p k :
  stateless (get_top_predictions E p k).
Proof. unfold get_top_predictions. repeat stateless_step. Qed.

Lemma stateless_model_predict x : stateless (model_predict E x).
Proof. unfold model_predict. repeat stateless_step. Qed.

Lemma stateless_predict_body file : stateless (predict_body E file).
Proof.
  unfold predict_body.
  repeat first
    [ apply stateless_get_pred_label
    | apply stateless_get_top_predictions
    | apply stateless_model_predict
    | stateless_step ].
Qed.

Lemma stateless_handler req : stateless (handler E req).
Proof.
  destruct req; cbn [handler];
    [ unfold read_root | unfold health_check | unfold model_info
    | unfold get_breeds | unfold predict_breed ];
    repeat first [ apply stateless_predict_body | stateless_step ].
Qed.

Lemma serve_frame req s : agree (snd (serve E req s)) s.
Proof.
  unfold serve.
  pose proof (stateless_handler req (agree_refl s)) as [_ H].
  destruct (handler E req s) as [r s']. exact H.
Qed.

Lemma serve_response req s1 s2 :
  agree s1 s2 -> fst (serve E req s1) = fst (serve E req s2).
Proof.
  intros H. unfold serve.
  pose proof (stateless_handler req H) as [Hr _].
  destruct (handler E req s1) as [r1 s1'], (handler E req s2) as [r2 s2'].
  cbn in *. now subst.
Qed.

Lemma serve_all_frame reqs : forall s, agree (serve_all E reqs s) s.
Proof.
  induction reqs as [|req reqs IH]; intros s; cbn [serve_all].
  - apply agree_refl.
  - eapply agree_trans; [apply IH|apply serve_frame].
Qed.

End Handlers.

(** C3.  Whatever the endpoint and whatever the state, handling a request
    leaves [model] and [breeds] as they were, and nothing the request
    built is visible afterwards: the answer to any following request is
    the answer it would have had if the first request had not been
    handled. *)
Theorem handlers_preserve_globals :
  forall (E : Env) (req : Request) (s : State),
    model (snd (serve E req s)) = model s /\
    breeds (snd (serve E req s)) = breeds s /\
    (forall req' : Request,
       fst (serve E req' (snd (serve E req s))) = fst (serve E req' s)).
Proof.
  intros E req s.
  destruct (serve_frame E req s) as [Hm Hb].
  repeat split; try assumption.
  intros req'. apply serve_response. now split.
Qed.

Section Sessions.

Variable E : Env.


End Sessions.


Example session_of_three :
  let answers :=
    serve_each Demo.env
      [PostPredict Demo.upload; PostPredict Demo.short_upload;
       PostPredict Demo.upload] Demo.running in
  nth_error answers 0 = nth_error answers 2 /\
  option_map status (nth_error answers 0) = Some 200%nat /\
  option_map status (nth_error answers 1) = Some 500%nat.
Proof. vm_compute. repeat split; reflexivity. Qed.

(* ===================================================================== *)
(** ** The top predictions *)
(* ===================================================================== *)

Section SortedFacts.

Variable A : Type.
Variable R : A -> A -> Prop.

Lemma StronglySorted_skipn (n : nat) :
  forall l, StronglySorted R l -> StronglySorted R (skipn n l).
Proof.
  induction n as [|n IH]; intros l Hl; [exact Hl|].
  destruct l as [|a l]; [exact Hl|].
  cbn [skipn]. apply IH. now apply StronglySorted_inv in Hl.
Qed.

Lemma StronglySorted_snoc (l : list A) (z : A) :
  StronglySorted R l -> Forall (fun x => R x z) l ->
  StronglySorted R (l ++ [z]).
Proof.
  induction 1 as [|a l Hl IH Ha]; intros Hz; cbn.
  - constructor; constructor.
  - apply Forall_cons_iff in Hz as [Haz Hz].
    constructor; [now apply IH|].
    apply Forall_app; split; [assumption|]. now constructor.
Qed.

Lemma StronglySorted_rev (l : list A) :
  StronglySorted R l -> StronglySorted (fun x y => R y x) (rev l).
Proof.
  induction 1 as [|a l Hl IH Ha]; cbn; [constructor|].
  (* the relation is flipped, so [a] may close the reversed tail *)
  revert IH. generalize (Forall_rev Ha). generalize (rev l).
  intros r Hr. induction 1 as [|b r Hs IHs Hb]; cbn.
  - constructor; constructor.
  - apply Forall_cons_iff in Hr as [Hab Hr].
    constructor; [now apply IHs|].
    apply Forall_app; split; [assumption|]. now constructor.
Qed.

Lemma StronglySorted_last (l : list A) (z : A) :
  StronglySorted R (l ++ [z]) -> Forall (fun x => R x z) l.
Proof.
  induction l as [|a l IH]; cbn; intros H; [constructor|].
  apply StronglySorted_inv in H as [Hl Ha].
  constructor; [|now apply IH].
  apply Forall_app in Ha as [_ Hz]. now apply Forall_inv in Hz.
Qed.

Lemma In_skipn (n : nat) (l : list A) (x : A) :
  In x (skipn n l) -> In x l.
Proof.
  intros H. rewrite <- (firstn_skipn n l). apply in_or_app. now right.
Qed.

End SortedFacts.

Section TopIndices.

Variable f : list Q -> list nat.
Hypothesis f_ok : argsort_ok f.
Variable p : list Q.
Variable k : nat.

Lemma argsort_length : List.length (f p) = List.length p.
Proof.
  destruct (f_ok p) as [Hp _].
  rewrite (Permutation_length Hp). apply length_seq.
Qed.

Lemma argsort_in (i : nat) : In i (f p) <-> (i < List.length p)%nat.
Proof.
  destruct (f_ok p) as [Hp _]. split; intros H.
  - apply (Permutation_in _ Hp) in H. apply in_seq in H. lia.
  - apply (Permutation_in _ (Permutation_sym Hp)). apply in_seq. lia.
Qed.

Lemma top_indices_length :
  List.length (rev (Np.last_k k (f p))) = Nat.min k (List.length p).
Proof.
  unfold Np.last_k.
  rewrite length_rev, length_skipn, argsort_length. lia.
Qed.

Lemma top_indices_in_range :
  Forall (fun i => (i < List.length p)%nat) (rev (Np.last_k k (f p))).
Proof.
  apply Forall_forall. intros i Hi. unfold Np.last_k in Hi.
  apply in_rev in Hi. apply In_skipn in Hi. now apply argsort_in.
Qed.

Lemma top_indices_sorted :
  StronglySorted (fun i j => (val p j <= val p i)%Q) (rev (Np.last_k k (f p))).
Proof.
  unfold Np.last_k.
  apply (@StronglySorted_rev nat (fun i j => (val p i <= val p j)%Q)).
  apply StronglySorted_skipn. exact (proj2 (f_ok p)).
Qed.

(** The first of the top indices holds a maximum of the whole vector. *)
Lemma top_indices_head :
  p <> [] -> (0 < k)%nat ->
  exists i0 rest,
    (rev (Np.last_k k (f p))) = i0 :: rest /\
    (forall j, (j < List.length p)%nat -> (val p j <= val p i0)%Q).
Proof.
  intros Hne Hk.
  destruct (rev (Np.last_k k (f p))) as [|i0 rest] eqn:Hidxs.
  - exfalso. pose proof top_indices_length as Hl. rewrite Hidxs in Hl.
    destruct p; [congruence|]. cbn in Hl. lia.
  - exists i0, rest. split; [reflexivity|].
    intros j Hj.
    assert (Hsplit : f p =
              (firstn (List.length (f p) - k) (f p) ++ rev rest) ++ [i0]).
    { rewrite <- app_assoc.
      change (rev rest ++ [i0]) with (rev (i0 :: rest)).
      rewrite <- Hidxs. unfold Np.last_k.
      rewrite rev_involutive. symmetry. apply firstn_skipn. }
    pose proof (proj2 (f_ok p)) as Hs. rewrite Hsplit in Hs.
    apply StronglySorted_last in Hs.
    apply argsort_in in Hj. rewrite Hsplit in Hj.
    apply in_app_or in Hj as [Hj|[<-|[]]].
    + rewrite Forall_forall in Hs. now apply Hs.
    + apply Qle_refl.
Qed.

End TopIndices.

Section ArgsortStable.

Variable v : list Q.

Lemma insert_idx_perm (i : nat) (l : list nat) :
  Permutation (Np.insert_idx v i l) (i :: l).
Proof.
  induction l as [|j r IH]; cbn [Np.insert_idx]; [reflexivity|].
  destruct (Np.gtb (nth j v 0) (nth i v 0)); [reflexivity|].
  rewrite IH. apply perm_swap.
Qed.

Lemma insert_idx_sorted (i : nat) (l : list nat) :
  StronglySorted (le_at v) l -> StronglySorted (le_at v) (Np.insert_idx v i l).
Proof.
  induction 1 as [|j r Hr IH Hj]; cbn [Np.insert_idx].
  - constructor; constructor.
  - destruct (Np.gtb (nth j v 0) (nth i v 0)) eqn:Hg.
    + apply gtb_true in Hg.
      constructor; [now constructor|].
      constructor; [now apply Qlt_le_weak|].
      eapply Forall_impl; [|exact Hj].
      intros x Hx. unfold le_at in *.
      eapply Qle_trans; [apply Qlt_le_weak; exact Hg|exact Hx].
    + apply gtb_false in Hg.
      constructor; [exact IH|].
      eapply Permutation_Forall;
        [apply Permutation_sym, insert_idx_perm|].
      now constructor.
Qed.

Lemma fold_insert_perm (ixs : list nat) :
  forall acc,
    Permutation
      (fold_left (fun a i => Np.insert_idx v i a) ixs acc) (acc ++ ixs).
Proof.
  induction ixs as [|i ixs IH]; intros acc; cbn [fold_left].
  - now rewrite app_nil_r.
  - eapply Permutation_trans; [apply IH|].
    eapply Permutation_trans;
      [apply Permutation_app_tail, insert_idx_perm|].
    cbn. apply Permutation_middle.
Qed.

Lemma fold_insert_sorted (ixs : list nat) :
  forall acc,
    StronglySorted (le_at v) acc ->
    StronglySorted (le_at v)
      (fold_left (fun a i => Np.insert_idx v i a) ixs acc).
Proof.
  induction ixs as [|i ixs IH]; intros acc Hacc; cbn [fold_left];
    [exact Hacc|].
  apply IH. now apply insert_idx_sorted.
Qed.

End ArgsortStable.

(** The stable index sort keeps numpy's promise. *)
Lemma argsort_stable_ok : argsort_ok Np.argsort_stable.
Proof.
  intros v. unfold Np.argsort_stable. split.
  - apply (fold_insert_perm v (seq 0 (List.length v)) []).
  - apply fold_insert_sorted. constructor.
Qed.

Section Runs.

Variable E : Env.

Lemma map_result_ok {A B : Type} (f : A -> Result B) (g : A -> B)
    (l : list A) :
  Forall (fun x => f x = Ok (g x)) l -> map_result f l = Ok (map g l).
Proof.
  induction 1 as [|x l Hx _ IH]; cbn [map_result map]; [reflexivity|].
  now rewrite Hx, IH.
Qed.

Lemma get_pred_label_run (s : State) (bs : list string) (p : list Q)
    (i : nat) (b : string) :
  breeds s = JArr (map JStr bs) ->
  Np.argmax p = Ok i ->
  nth_error bs i = Some b ->
  get_pred_label [p] s = (Ok (JStr b), s).
Proof.
  intros Hb Harg Hbi.
  unfold get_pred_label, bind, global_breeds, lift.
  cbn [concat]. rewrite app_nil_r, Harg, Hb.
  cbn [py_getitem]. now rewrite nth_error_map, Hbi.
Qed.

Lemma get_top_predictions_run (s : State) (bs : list string)
    (p : list Q) (k : nat) :
  breeds s = JArr (map JStr bs) ->
  Forall (fun i => (i < List.length p)%nat /\ (i < List.length bs)%nat)
         (rev (Np.last_k k (np_argsort E p))) ->
  get_top_predictions E [p] k s =
    (Ok (map (entry_at E bs p) (rev (Np.last_k k (np_argsort E p)))), s).
Proof.
  intros Hb Hin.
  unfold get_top_predictions, bind, global_breeds, lift. cbn [row0].
  rewrite Hb.
  erewrite map_result_ok; [reflexivity|].
  eapply Forall_impl; [|exact Hin].
  intros i [Hp Hbs]. cbn [py_getitem].
  rewrite nth_error_map, (nth_error_nth' bs ""%string Hbs).
  cbn [option_map py_display].
  now rewrite (nth_error_nth' p 0%Q Hp).
Qed.

(** A maximum held at one position only is where [np.argmax] lands. *)
Lemma argmax_unique (p : list Q) (i i0 : nat) :
  Np.argmax p = Ok i ->
  (i0 < List.length p)%nat ->
  (forall j, (j < List.length p)%nat -> j <> i0 ->
             (val p j < val p i0)%Q) ->
  i = i0.
Proof.
  intros Harg Hi0 Huniq.
  assert (Hne : p <> []) by (destruct p; [cbn in Hi0; lia|discriminate]).
  destruct (argmax_spec Hne) as (i' & m & Harg' & _ & Hnth & Hmax & _).
  rewrite Harg in Harg'. injection Harg' as <-.
  destruct (Nat.eq_dec i i0) as [|Hneq]; [assumption|exfalso].
  assert (Hi : (i < List.length p)%nat)
    by (apply nth_error_Some; congruence).
  specialize (Huniq i Hi Hneq).
  pose proof (Hmax i0 _ (nth_error_nth' p 0%Q Hi0)) as Hle.
  unfold val in Huniq.
  rewrite (nth_error_nth p i 0%Q Hnth) in Huniq.
  exact (Qlt_not_le _ _ Huniq Hle).
Qed.

End Runs.

Section PredictRun.

Variable E : Env.

(** The run of [predict_breed] in which nothing raises. *)
Lemma predict_breed_run (file : UploadFile) (s : State) (mdl : Model)
    (ct : string) (bytes : list Z) (im : Image) (p : list Q)
    (bs : list string) (i : nat) (b : string) (m : Q) :
  model s = Some mdl ->
  content_type file = Some ct ->
  String.prefix "image/" ct = true ->
  read file = Ok bytes ->
  pil_open E bytes = Ok im ->
  keras_predict E mdl (preprocess_image E im) = Ok [p] ->
  breeds s = JArr (map JStr bs) ->
  Np.argmax p = Ok i ->
  nth_error bs i = Some b ->
  Np.max p = Ok m ->
  Forall (fun i => (i < List.length p)%nat /\ (i < List.length bs)%nat)
         (rev (Np.last_k 3 (np_argsort E p))) ->
  exists body,
    predict_breed E file s =
      (Ok body,
       mkState (model s) (breeds s)
               (trace s ++ [EvFileRead; EvImageOpen; EvPredict])) /\
    field "prediction" body =
      Some (JObj [("breed", JStr (display E b));
                  ("confidence", JFloat m);
                  ("confidence_percentage",
                   JFloat (py_round (m * 100) 1))]) /\
    field "top_3_predictions" body =
      Some (JArr (map (entry_at E bs p)
                      (rev (Np.last_k 3 (np_argsort E p))))).
Proof.
  intros Hm Hct Hpre Hread Hopen Hpred Hb Harg Hbi Hmax Htop.
  destruct s as [sm sb st]. cbn [model breeds trace] in *. subst sm sb.
  unfold predict_breed, bind at 1, global_model. cbn [model].
  unfold bind at 1, lift at 1, content_type_is_image.
  rewrite Hct, Hpre. cbn [negb].
  unfold try_catch, predict_body.
  unfold bind at 1, emit at 1. cbn [model breeds trace].
  unfold bind at 1, lift at 1. rewrite Hread.
  unfold bind at 1, emit at 1. cbn [model breeds trace].
  unfold bind at 1, lift at 1. rewrite Hopen.
  destruct (size im) as [width height] eqn:Hsize.
  unfold bind at 1, model_predict, bind at 1, global_model. cbn [model].
  unfold bind at 1, emit at 1. cbn [model breeds trace].
  unfold lift at 1. rewrite Hpred.
  unfold bind at 1.
  erewrite get_pred_label_run; [|reflexivity|eassumption|eassumption].
  unfold bind at 1, lift at 1. cbn [row0].
  unfold bind at 1, lift at 1. rewrite Hmax.
  unfold bind at 1.
  erewrite get_top_predictions_run; [|reflexivity|assumption].
  unfold bind at 1, lift at 1. cbn [py_display].
  unfold bind at 1, global_breeds. cbn [breeds].
  unfold bind at 1, lift at 1. cbn [py_len].
  unfold ret.
  rewrite <- !app_assoc. cbn [app].
  eexists. split; [reflexivity|]. split; reflexivity.
Qed.

End PredictRun.

(** C5, as the code has it.  With a list of breed names in [breeds], an
    output vector [p] with one unit per name, an [argsort] that keeps
    numpy's promise and a [title] that keeps Python's,
    [get_top_predictions] with [top_k = 3] returns [min 3 (len p)]
    entries, one per position of a list [idxs] that is in non-increasing
    order of confidence; the entry for position [i] holds the confidence
    [p[i]] and, as its breed, [breeds[i]] with underscores replaced by
    spaces and title-cased.  In a [/predict] response built from [p], the
    reported confidence is the maximum of [p], the reported breed is the
    display form of [breeds[np.argmax(p)]], the first entry's confidence
    equals the reported one, and the first entry's breed is the reported
    breed whenever the maximum is held at one position only. *)
Theorem top_predictions_spec :
  forall (E : Env) (s : State) (bs : list string) (p : list Q),
    argsort_ok (np_argsort E) ->
    title_ok (str_title E) ->
    breeds s = JArr (map JStr bs) ->
    List.length p = List.length bs ->
    exists (idxs : list nat) (entries : list JSON),
      get_top_predictions E [p] 3 s = (Ok entries, s) /\
      List.length entries = Nat.min 3 (List.length p) /\
      List.length idxs = List.length entries /\
      Forall (fun i => (i < List.length p)%nat) idxs /\
      StronglySorted (fun i j => (val p j <= val p i)%Q) idxs /\
      (forall k i, nth_error idxs k = Some i ->
         exists name d,
           nth_error bs i = Some name /\
           displayed E name d /\
           nth_error entries k =
             Some (JObj [("breed", JStr d);
                         ("confidence", JFloat (val p i))])) /\
      (forall (file : UploadFile) (mdl : Model) (ct : string)
              (bytes : list Z) (im : Image),
          model s = Some mdl ->
          content_type file = Some ct ->
          String.prefix "image/" ct = true ->
          read file = Ok bytes ->
          pil_open E bytes = Ok im ->
          keras_predict E mdl (preprocess_image E im) = Ok [p] ->
          p <> [] ->
          exists (body : JSON) (i0 : nat) (rest : list nat)
                 (i : nat) (b d : string) (m : Q),
            fst (serve E (PostPredict file) s) = mkResponse 200 body /\
            idxs = i0 :: rest /\
            field "top_3_predictions" body = Some (JArr entries) /\
            field "prediction" body =
              Some (JObj [("breed", JStr d);
                          ("confidence", JFloat m);
                          ("confidence_percentage",
                           JFloat (py_round (m * 100) 1))]) /\
            Np.argmax p = Ok i /\
            nth_error bs i = Some b /\
            displayed E b d /\
            Np.max p = Ok m /\
            (forall j, (j < List.length p)%nat -> (val p j <= m)%Q) /\
            (val p i0 == m)%Q /\
            ((forall j, (j < List.length p)%nat -> j <> i0 ->
                        (val p j < val p i0)%Q) ->
             nth_error entries 0 =
               Some (JObj [("breed", JStr d);
                           ("confidence", JFloat (val p i0))]))).
Proof.
  intros E s bs p Hsort Htitle Hb Hlen.
  set (idxs := rev (Np.last_k 3 (np_argsort E p))).
  pose proof (top_indices_in_range Hsort p 3) as Hrange. fold idxs in Hrange.
  assert (Hrange2 :
            Forall (fun i => (i < List.length p)%nat /\
                             (i < List.length bs)%nat) idxs).
  { eapply Forall_impl; [|exact Hrange]. cbn. intros i Hi. lia. }
  exists idxs, (map (entry_at E bs p) idxs).
  split; [now apply get_top_predictions_run|].
  split; [rewrite length_map; apply (top_indices_length Hsort)|].
  split; [now rewrite length_map|].
  split; [exact Hrange|].
  split; [apply (top_indices_sorted Hsort)|].
  split.
  { intros k i Hk.
    assert (Hi : (i < List.length bs)%nat).
    { rewrite Forall_forall in Hrange2.
      apply Hrange2. eapply nth_error_In. exact Hk. }
    exists (nth i bs ""%string), (display E (nth i bs ""%string)).
    split; [now apply nth_error_nth'|].
    split; [now apply display_displayed|].
    rewrite nth_error_map, Hk. reflexivity. }
  intros file mdl ct bytes im Hm Hct Hpre Hread Hopen Hpred Hne.
  destruct (argmax_spec Hne) as (i & m & Harg & Hmax & Hnth & Hle & _).
  assert (Hi : (i < List.length p)%nat) by (apply nth_error_Some; congruence).
  destruct (nth_error bs i) as [b|] eqn:Hbi;
    [|apply nth_error_None in Hbi; lia].
  destruct (@top_indices_head _ Hsort p 3 Hne ltac:(lia))
    as (i0 & rest & Hidxs & Htop).
  fold idxs in Hidxs.
  destruct (@predict_breed_run E file s mdl ct bytes im p bs i b m
              Hm Hct Hpre Hread Hopen Hpred Hb Harg Hbi Hmax Hrange2)
    as (body & Hrun & Hpr & Htop3).
  exists body, i0, rest, i, b, (display E b), m.
  assert (Hi0 : (i0 < List.length p)%nat).
  { rewrite Forall_forall in Hrange. apply Hrange. rewrite Hidxs. now left. }
  assert (Hvm : forall j, (j < List.length p)%nat -> (val p j <= m)%Q).
  { intros j Hj. apply (Hle j). now apply nth_error_nth'. }
  split; [unfold serve; cbn [handler]; rewrite Hrun; reflexivity|].
  split; [exact Hidxs|].
  split; [exact Htop3|].
  split; [exact Hpr|].
  split; [exact Harg|].
  split; [exact Hbi|].
  split; [now apply display_displayed|].
  split; [exact Hmax|].
  split; [exact Hvm|].
  split.
  - apply Qle_antisym; [now apply Hvm|].
    specialize (Htop i Hi). unfold val in Htop at 1.
    now rewrite (nth_error_nth p i 0%Q Hnth) in Htop.
  - intros Huniq.
    rewrite (argmax_unique p Harg Hi0 Huniq) in Hbi.
    rewrite Hidxs. cbn [map nth_error]. unfold entry_at.
    now rewrite (nth_error_nth bs i0 ""%string Hbi).
Qed.

Lemma top_predictions_spec_witness :
  exists (idxs : list nat) (entries : list JSON),
    get_top_predictions Demo.env [Demo.probabilities] 3 Demo.running =
      (Ok entries, Demo.running) /\
    List.length entries = Nat.min 3 (List.length Demo.probabilities) /\
    List.length idxs = List.length entries /\
    Forall (fun i => (i < List.length Demo.probabilities)%nat) idxs /\
    StronglySorted
      (fun i j => (val Demo.probabilities j <= val Demo.probabilities i)%Q)
      idxs /\
    (forall k i, nth_error idxs k = Some i ->
       exists name d,
         nth_error Demo.breed_names i = Some name /\
         displayed Demo.env name d /\
         nth_error entries k =
           Some (JObj [("breed", JStr d);
                       ("confidence", JFloat (val Demo.probabilities i))])) /\
    (forall (file : UploadFile) (mdl : Model) (ct : string)
            (bytes : list Z) (im : Image),
        model Demo.running = Some mdl ->
        content_type file = Some ct ->
        String.prefix "image/" ct = true ->
        read file = Ok bytes ->
        pil_open Demo.env bytes = Ok im ->
        keras_predict Demo.env mdl (preprocess_image Demo.env im) =
          Ok [Demo.probabilities] ->
        Demo.probabilities <> [] ->
        exists (body : JSON) (i0 : nat) (rest : list nat)
               (i : nat) (b d : string) (m : Q),
          fst (serve Demo.env (PostPredict file) Demo.running) =
            mkResponse 200 body /\
          idxs = i0 :: rest /\
          field "top_3_predictions" body = Some (JArr entries) /\
          field "prediction" body =
            Some (JObj [("breed", JStr d);
                        ("confidence", JFloat m);
                        ("confidence_percentage",
                         JFloat (py_round (m * 100) 1))]) /\
          Np.argmax Demo.probabilities = Ok i /\
          nth_error Demo.breed_names i = Some b /\
          displayed Demo.env b d /\
          Np.max Demo.probabilities = Ok m /\
          (forall j, (j < List.length Demo.probabilities)%nat ->
                     (val Demo.probabilities j <= m)%Q) /\
          (val Demo.probabilities i0 == m)%Q /\
          ((forall j, (j < List.length Demo.probabilities)%nat -> j <> i0 ->
                      (val Demo.probabilities j <
                       val Demo.probabilities i0)%Q) ->
           nth_error entries 0 =
             Some (JObj [("breed", JStr d);
                         ("confidence",
                          JFloat (val Demo.probabilities i0))]))).
Proof.
  apply (@top_predictions_spec Demo.env Demo.running Demo.breed_names
           Demo.probabilities).
  - exact argsort_stable_ok.
  - exact ascii_title_ok.
  - reflexivity.
  - reflexivity.
Defined.

(** With two breeds the list has two entries, not three; and when both
    units tie, the first entry names the second breed while the reported
    breed is the first one. *)
Lemma top_predictions_two_breeds_tie :
  fst (get_top_predictions Demo.tie_env [[1#2; 1#2]%Q] 3 Demo.tie_running) =
    Ok [ JObj [("breed", JStr "Pug"); ("confidence", JFloat (1#2))];
         JObj [("breed", JStr "Golden Retriever");
               ("confidence", JFloat (1#2))] ] /\
  exists body prediction,
    fst (serve Demo.tie_env (PostPredict Demo.upload) Demo.tie_running) =
      mkResponse 200 body /\
    field "top_3_predictions" body =
      Some (JArr
        [ JObj [("breed", JStr "Pug"); ("confidence", JFloat (1#2))];
          JObj [("breed", JStr "Golden Retriever");
                ("confidence", JFloat (1#2))] ]) /\
    field "prediction" body = Some prediction /\
    field "breed" prediction = Some (JStr "Golden Retriever").
Proof.
  split; [vm_compute; reflexivity|].
  eexists. eexists. vm_compute. repeat split; reflexivity.
Qed.

(* ===================================================================== *)
(** ** The breed list endpoint *)
(* ===================================================================== *)

Lemma display_all_names (E : Env) (bs : list string) :
  display_all E (JArr (map JStr bs)) =
    Ok (map (fun b => JStr (display E b)) bs).
Proof.
  unfold display_all. cbn [py_iter].
  induction bs as [|b bs IH]; cbn [map map_result py_display];
    [reflexivity|].
  now rewrite IH.
Qed.

(** C7.  With a list of breed names in [breeds] and a [title] that
    keeps Python's promise, [/breeds] returns [total_breeds] equal to the
    length of the list and, under [breeds], as many names in the same
    order: the name at position [i] of the answer is [breeds[i]], the
    label of output unit [i], with its underscores replaced by spaces
    and title-cased. *)
Theorem get_breeds_lists_all :
  forall (E : Env) (s : State) (bs : list string),
    title_ok (str_title E) ->
    breeds s = JArr (map JStr bs) ->
    exists names : list string,
      get_breeds E s =
        (Ok (JObj [("total_breeds", JInt (Z.of_nat (List.length bs)));
                   ("breeds", JArr (map JStr names))]),
         s) /\
      List.length names = List.length bs /\
      (forall (i : nat) (b : string),
          nth_error bs i = Some b ->
          exists d, nth_error names i = Some d /\ displayed E b d).
Proof.
  intros E s bs Htitle Hb.
  exists (map (display E) bs). split; [|split].
  - unfold get_breeds, bind, global_breeds, lift, ret. rewrite Hb.
    cbn [py_len]. rewrite display_all_names, length_map, map_map.
    reflexivity.
  - apply length_map.
  - intros i b Hi. exists (display E b).
    split; [now rewrite nth_error_map, Hi|now apply display_displayed].
Qed.

Lemma get_breeds_lists_all_witness :
  exists names : list string,
    get_breeds Demo.env Demo.running =
      (Ok (JObj [("total_breeds",
                  JInt (Z.of_nat (List.length Demo.breed_names)));
                 ("breeds", JArr (map JStr names))]),
       Demo.running) /\
    List.length names = List.length Demo.breed_names /\
    (forall (i : nat) (b : string),
        nth_error Demo.breed_names i = Some b ->
        exists d, nth_error names i = Some d /\ displayed Demo.env b d).
Proof.
  apply (@get_breeds_lists_all Demo.env Demo.running Demo.breed_names).
  - exact ascii_title_ok.
  - reflexivity.
Defined.

Example breeds_shown :
  fst (serve Demo.env GetBreeds Demo.running) =
    mkResponse 200
      (JObj [("total_breeds", JInt 4);
             ("breeds",
              JArr [JStr "Golden Retriever"; JStr "Pug";
                    JStr "Border Collie"; JStr "Shih-Tzu"])]).
Proof. vm_compute. reflexivity. Qed.

(* ===================================================================== *)
(** ** The two model builders *)
(* ===================================================================== *)

(** C8.  With 120 entries in [breeds], [create_model] of [main.py] hands
    Keras the architecture that [create_model] of [create_model.py]
    builds from its defaults, and returns it untrained when Keras accepts
    it: an input layer of shape 224x224x3, the MobileNetV2 feature-vector
    layer from the one URL, a dense softmax head of 120 units, compiled
    with categorical cross-entropy, Adam and the accuracy metric. *)
Theorem create_model_builders_agree :
  forall (E : Env) (s : State),
    py_len (breeds s) = Ok 120%nat ->
    main_architecture 120 = CreateModelPy.create_model_default /\
    CreateModelPy.create_model_default =
      mkArchitecture
        [ InputLayer [Some 224%nat; Some 224%nat; Some 3%nat];
          LambdaHubKerasLayer
            "https://kaggle.com/models/google/mobilenet-v2/TensorFlow2/100-224-feature-vector/1";
          Dense 120 "softmax" ]
        CategoricalCrossentropy Adam ["accuracy"] /\
    create_model E s =
      (match keras_build E CreateModelPy.create_model_default with
       | Ok _ => Ok (mkModel CreateModelPy.create_model_default Untrained)
       | Raise e => Raise e
       end, s).
Proof.
  intros E s Hlen. split; [reflexivity|]. split; [reflexivity|].
  unfold create_model, bind, global_breeds, lift, ret. rewrite Hlen.
  change (main_architecture 120) with CreateModelPy.create_model_default.
  destruct (keras_build E CreateModelPy.create_model_default); reflexivity.
Qed.

Lemma create_model_builders_agree_witness :
  main_architecture 120 = CreateModelPy.create_model_default /\
  CreateModelPy.create_model_default =
    mkArchitecture
      [ InputLayer [Some 224%nat; Some 224%nat; Some 3%nat];
        LambdaHubKerasLayer
          "https://kaggle.com/models/google/mobilenet-v2/TensorFlow2/100-224-feature-vector/1";
        Dense 120 "softmax" ]
      CategoricalCrossentropy Adam ["accuracy"] /\
  create_model Demo.env Demo.full_state =
    (match keras_build Demo.env CreateModelPy.create_model_default with
     | Ok _ => Ok (mkModel CreateModelPy.create_model_default Untrained)
     | Raise e => Raise e
     end, Demo.full_state).
Proof.
  apply (@create_model_builders_agree Demo.env Demo.full_state).
  reflexivity.
Defined.

(* ===================================================================== *)
(** ** Loading the weights and starting up *)
(* ===================================================================== *)

Section Loading.

Variable E : Env.

(** [create_model] in one step. *)
Lemma create_model_run (s : State) :
  create_model E s =
    (match py_len (breeds s) with
     | Raise e => Raise e
     | Ok n =>
         match keras_build E (main_architecture n) with
         | Raise e => Raise e
         | Ok _ => Ok (mkModel (main_architecture n) Untrained)
         end
     end, s).
Proof.
  unfold create_model, bind, global_breeds, lift, ret.
  destruct (py_len (breeds s)) as [n|e]; [|reflexivity].
  destruct (keras_build E (main_architecture n)); reflexivity.
Qed.

(** [load_trained_model] in one step: it always returns, with [None]
    unless sizing, building and loading all succeed. *)
Lemma load_trained_model_run (weights_path : string) (s : State) :
  load_trained_model E weights_path s =
    (Ok (match py_len (breeds s) with
         | Raise _ => None
         | Ok n =>
             match keras_build E (main_architecture n) with
             | Raise _ => None
             | Ok _ =>
                 match keras_load_weights E (main_architecture n)
                         weights_path with
                 | Raise _ => None
                 | Ok w => Some (mkModel (main_architecture n) (Trained w))
                 end
             end
         end), s).
Proof.
  unfold load_trained_model, try_catch, bind at 1.
  rewrite create_model_run.
  destruct (py_len (breeds s)) as [n|e]; [|reflexivity].
  destruct (keras_build E (main_architecture n)) as [[]|e]; [|reflexivity].
  unfold bind, lift, ret. cbn [arch].
  destruct (keras_load_weights E (main_architecture n) weights_path);
    reflexivity.
Qed.

End Loading.



Example startup_without_checkpoint :
  startup_event Demo.no_checkpoint_env initial_state =
    (Ok tt,
     mkState (Some (mkModel (main_architecture 4) Untrained))
             (JArr (map JStr Demo.breed_names)) []).
Proof. vm_compute. reflexivity. Qed.

Example startup_with_bad_checkpoint :
  fst (load_trained_model Demo.bad_checkpoint_env checkpoint
         (mkState None (JArr (map JStr Demo.breed_names)) [])) = Ok None /\
  startup_event Demo.bad_checkpoint_env initial_state =
    (Ok tt,
     mkState (Some (mkModel (main_architecture 4) Untrained))
             (JArr (map JStr Demo.breed_names)) []).
Proof. split; vm_compute; reflexivity. Qed.

(* ===================================================================== *)
(** ** Loading the breed list *)
(* ===================================================================== *)

Section Breeds.

Variable E : Env.

Lemma try_weights_keeps_breeds (paths : list string) :
  keeps_breeds (try_weights E paths).
Proof.
  induction paths as [|path rest IH]; intros s; cbn [try_weights];
    [reflexivity|].
  destruct (os_path_exists E path); [|apply IH].
  unfold bind at 1. rewrite load_trained_model_run.
  match goal with |- context [set_model ?r] => generalize r end.
  intros m. unfold bind at 1, set_model.
  destruct m; [reflexivity|]. now rewrite IH.
Qed.

(** What [breeds] holds once [startup_event] has run, whether it
    returned or raised. *)
Lemma startup_breeds :
  breeds (snd (startup_event E initial_state)) =
    match open_breeds_json E with
    | Ok b => b
    | Raise (PyExc FileNotFoundError _) => JInt (-1)
    | Raise _ => JNull
    end.
Proof.
  unfold startup_event, bind at 1, load_breeds, try_catch, lift at 1.
  destruct (open_breeds_json E) as [b|[code d|[] msg]];
    try reflexivity.
  unfold bind at 1, set_breeds, initial_state. cbn [model breeds trace].
  unfold bind at 1, lift at 1.
  destruct (py_len b) as [n|e]; [|reflexivity].
  unfold bind at 1.
  pose proof (try_weights_keeps_breeds weights_paths (mkState None b []))
    as Hk.
  destruct (try_weights E weights_paths (mkState None b []))
    as [[loaded|e] s1]; cbn [snd breeds] in Hk; [|exact Hk].
  destruct loaded; cbn [negb]; [exact Hk|].
  unfold bind at 1. rewrite create_model_run.
  destruct (py_len (breeds s1)) as [n'|e]; [|exact Hk].
  destruct (keras_build E (main_architecture n')); exact Hk.
Qed.

End Breeds.

(** C9, as the code has it.  When [breeds.json] does not exist,
    [load_breeds] returns the integer -1 and no breed list, and
    [startup_event] stores it and fails with a [TypeError] on
    [len(breeds)], so the service does not start.  On the start-up path
    [breeds] ends up a list exactly when [breeds.json] was opened and
    parsed and its content is a JSON array. *)
Theorem load_breeds_fallback :
  forall E : Env,
    (forall (msg : string) (s : State),
        open_breeds_json E = Raise (PyExc FileNotFoundError msg) ->
        load_breeds E s = (Ok (JInt (-1)), s) /\
        exists m,
          startup_event E s =
            (Raise (PyExc TypeError m),
             mkState (model s) (JInt (-1)) (trace s))) /\
    (is_list (breeds (snd (startup_event E initial_state))) = true <->
     exists l, open_breeds_json E = Ok (JArr l)).
Proof.
  intros E. split.
  - intros msg s Hopen. split.
    + unfold load_breeds, try_catch, lift. now rewrite Hopen.
    + eexists.
      unfold startup_event, bind at 1, load_breeds, try_catch, lift at 1.
      rewrite Hopen. reflexivity.
  - rewrite startup_breeds.
    destruct (open_breeds_json E) as [b|[code d|[] msg]]; cbn [is_list];
      try (split; [discriminate|intros [l Hl]; discriminate]).
    split.
    + destruct b; cbn [is_list]; try discriminate. intros _. now eexists.
    + intros [l Hl]. injection Hl as ->. reflexivity.
Qed.

(** A [breeds.json] that holds an object is opened and parsed, start-up
    succeeds, and [breeds] is a dict, not a list. *)
Lemma startup_with_object_breeds :
  open_breeds_json Demo.object_breeds_env =
    Ok (JObj [("pug", JInt 0); ("beagle", JInt 1)]) /\
  fst (startup_event Demo.object_breeds_env initial_state) = Ok tt /\
  breeds (snd (startup_event Demo.object_breeds_env initial_state)) =
    JObj [("pug", JInt 0); ("beagle", JInt 1)] /\
  is_list (breeds (snd (startup_event Demo.object_breeds_env initial_state)))
    = false.
Proof. repeat split; vm_compute; reflexivity. Qed.

Example startup_without_breeds_file :
  startup_event Demo.no_breeds_env initial_state =
    (Raise (PyExc TypeError "object has no len()"),
     mkState None (JInt (-1)) []).
Proof. vm_compute. reflexivity. Qed.

(* ===================================================================== *)
(** ** The error gates of [/predict] *)
(* ===================================================================== *)

Section Gates.

Variable E : Env.

(** X12.  For an upload that carries a content type the gates come in
    the order 503, 400, 500: the first two answer without touching the
    state, so before the body is read or the model is called; past
    them the answer is 500 when the [try] block raises and 200 with its
    value when it returns. *)
Lemma predict_breed_gates (file : UploadFile) (s : State) (ct : string) :
  content_type file = Some ct ->
  (model s = None ->
   serve E (PostPredict file) s =
     (mkResponse 503 (JObj [("detail", JStr "Model not loaded")]), s)) /\
  (forall mdl, model s = Some mdl ->
     String.prefix "image/" ct = false ->
     serve E (PostPredict file) s =
       (mkResponse 400
          (JObj [("detail",
                  JStr "File must be an image (jpg, png, etc.)")]), s)) /\
  (forall mdl, model s = Some mdl ->
     String.prefix "image/" ct = true ->
     (forall e, fst (predict_body E file s) = Raise e ->
        fst (serve E (PostPredict file) s) =
          mkResponse 500
            (JObj [("detail",
                    JStr ("Error processing image: " ++ exn_str e))])) /\
     (forall body, fst (predict_body E file s) = Ok body ->
        fst (serve E (PostPredict file) s) = mkResponse 200 body)).
Proof.
  intros Hct.
  assert (Hgate : forall mdl, model s = Some mdl ->
            handler E (PostPredict file) s =
              (if negb (String.prefix "image/" ct)
               then raise (HTTPException 400
                             "File must be an image (jpg, png, etc.)")
               else try_catch (predict_body E file)
                      (fun e => raise (HTTPException 500
                         ("Error processing image: " ++ exn_str e)))) s).
  { intros mdl Hm. cbn [handler].
    unfold predict_breed, bind at 1, global_model. cbn beta. rewrite Hm.
    unfold bind at 1, lift, content_type_is_image. now rewrite Hct. }
  split; [|split].
  - intros Hm. unfold serve. cbn [handler].
    unfold predict_breed, bind at 1, global_model. cbn beta.
    rewrite Hm. reflexivity.
  - intros mdl Hm Hpre. unfold serve.
    rewrite (Hgate mdl Hm), Hpre. reflexivity.
  - intros mdl Hm Hpre. unfold serve.
    rewrite (Hgate mdl Hm), Hpre. cbn [negb]. unfold try_catch.
    split.
    + intros e He. destruct (predict_body E file s) as [r s'].
      cbn [fst] in He. subst r. reflexivity.
    + intros body Hbody. destruct (predict_body E file s) as [r s'].
      cbn [fst] in Hbody. subst r. reflexivity.
Qed.

End Gates.

(** C10, where the code leaves the gate order.  With a model loaded, an
    upload that carries no content type is answered neither 400 nor from
    the [try] block: [file.content_type.startswith] raises outside it,
    and the framework answers 500 without the body being read or the
    model called. *)
Theorem predict_breed_without_content_type :
  forall (E : Env) (file : UploadFile) (s : State) (mdl : Model),
    model s = Some mdl ->
    content_type file = None ->
    serve E (PostPredict file) s =
      (mkResponse 500 (JStr "Internal Server Error"), s).
Proof.
  intros E file s mdl Hm Hct. unfold serve. cbn [handler].
  unfold predict_breed, bind at 1, global_model. cbn beta. rewrite Hm.
  unfold bind, lift, content_type_is_image. rewrite Hct. reflexivity.
Qed.

Lemma predict_breed_without_content_type_witness :
  serve Demo.env (PostPredict Demo.untyped_upload) Demo.running =
    (mkResponse 500 (JStr "Internal Server Error"), Demo.running).
Proof.
  apply (@predict_breed_without_content_type Demo.env Demo.untyped_upload
           Demo.running
           (mkModel (main_architecture 4) (Trained [1#2; 1#3]%Q))).
  - reflexivity.
  - reflexivity.
Defined.

Example demo_predict_text_upload :
  fst (serve Demo.env
         (PostPredict (mkUploadFile (Some "test.txt") (Some "text/plain")
                         (Ok [84; 104; 105; 115]%Z)))
         Demo.running) =
    mkResponse 400
      (JObj [("detail", JStr "File must be an image (jpg, png, etc.)")]).
Proof. vm_compute. reflexivity. Qed.


(* ===================================================================== *)
(** ** Start-up in closed form *)
(* ===================================================================== *)

Section Startup.

Variable E : Env.

(** The loop over [weights_paths], from the state start-up reaches it in:
    the model it leaves in [model] and the flag it returns. *)
Lemma try_weights_run (b : JSON) :
  try_weights E weights_paths (mkState None b []) =
    (if os_path_exists E checkpoint then
       match fst (load_trained_model E checkpoint (mkState None b [])) with
       | Ok (Some m) => (Ok true, mkState (Some m) b [])
       | _ => (Ok false, mkState None b [])
       end
     else (Ok false, mkState None b [])).
Proof.
  unfold weights_paths. cbn [try_weights].
  destruct (os_path_exists E checkpoint); [|reflexivity].
  unfold bind at 1. rewrite load_trained_model_run. cbn [fst].
  match goal with |- context [set_model ?r] => generalize r end.
  intros [m|]; reflexivity.
Qed.

(** Every way [startup_event] can go from a fresh process. *)
Lemma startup_run :
  startup_event E initial_state =
    match open_breeds_json E with
    | Raise (PyExc FileNotFoundError _) =>
        (Raise (PyExc TypeError "object has no len()"),
         mkState None (JInt (-1)) [])
    | Raise e => (Raise e, initial_state)
    | Ok b =>
        match py_len b with
        | Raise e => (Raise e, mkState None b [])
        | Ok n =>
            match keras_build E (main_architecture n) with
            | Raise e => (Raise e, mkState None b [])
            | Ok _ =>
                (Ok tt,
                 mkState
                   (Some (mkModel (main_architecture n)
                      (if os_path_exists E checkpoint then
                         match keras_load_weights E (main_architecture n)
                                 checkpoint with
                         | Ok w => Trained w
                         | Raise _ => Untrained
                         end
                       else Untrained)))
                   b [])
            end
        end
    end.
Proof.
  unfold startup_event, bind at 1, load_breeds, try_catch, lift at 1.
  destruct (open_breeds_json E) as [b|[code d|[] msg]]; try reflexivity.
  unfold bind at 1, set_breeds, initial_state. cbn [model breeds trace].
  unfold bind at 1, lift at 1.
  destruct (py_len b) as [n|e] eqn:Hn; [|reflexivity].
  unfold bind at 1. rewrite try_weights_run, load_trained_model_run.
  cbn [fst breeds]. rewrite Hn.
  destruct (os_path_exists E checkpoint);
    destruct (keras_build E (main_architecture n)) as [[]|e] eqn:Hb;
    try destruct (keras_load_weights E (main_architecture n) checkpoint);
    cbn [negb]; try reflexivity;
    unfold bind at 1; rewrite create_model_run; cbn [breeds];
    rewrite Hn, Hb; reflexivity.
Qed.

End Startup.

(** X1.  A checkpoint that exists and loads: start-up from a fresh process
    returns with the parsed breeds in [breeds] and, in [model], the model
    with the checkpoint's parameters; the untrained fallback does not
    take its place. *)
Theorem startup_loads_checkpoint :
  forall (E : Env) (b : JSON) (n : nat) (w : Weights),
    open_breeds_json E = Ok b ->
    py_len b = Ok n ->
    os_path_exists E checkpoint = true ->
    keras_build E (main_architecture n) = Ok tt ->
    keras_load_weights E (main_architecture n) checkpoint = Ok w ->
    startup_event E initial_state =
      (Ok tt, mkState (Some (mkModel (main_architecture n) (Trained w))) b []).
Proof.
  intros E b n w Hopen Hn Hex Hbuild Hload.
  rewrite startup_run, Hopen, Hn, Hbuild, Hex, Hload. reflexivity.
Qed.

Lemma startup_loads_checkpoint_witness :
  startup_event Demo.env initial_state =
    (Ok tt,
     mkState (Some (mkModel (main_architecture 4) (Trained [1#2; 1#3]%Q)))
             (JArr (map JStr Demo.breed_names)) []).
Proof.
  apply (@startup_loads_checkpoint Demo.env
           (JArr (map JStr Demo.breed_names)) 4 [1#2; 1#3]%Q);
    reflexivity.
Defined.

(** X2.  Whenever start-up from a fresh process returns, [breeds] holds
    what [breeds.json] parsed to, [model] holds a model, and the model's
    dense head has exactly [len(breeds)] units: output unit [i] and
    [breeds[i]] line up. *)
Theorem startup_aligns_model_with_breeds :
  forall (E : Env) (s' : State),
    startup_event E initial_state = (Ok tt, s') ->
    exists (m : Model) (n : nat),
      model s' = Some m /\
      open_breeds_json E = Ok (breeds s') /\
      py_len (breeds s') = Ok n /\
      arch m = main_architecture n /\
      In (Dense n "softmax") (layers (arch m)).
Proof.
  intros E s' H. rewrite startup_run in H.
  destruct (open_breeds_json E) as [b|[code d|[] msg]]; try discriminate.
  destruct (py_len b) as [n|e] eqn:Hn; [|discriminate].
  destruct (keras_build E (main_architecture n)) as [[]|e]; [|discriminate].
  injection H as <-. cbn [model breeds].
  eexists. exists n. repeat split; try assumption.
  cbn. right. right. now left.
Qed.

Lemma startup_aligns_model_with_breeds_witness :
  exists (m : Model) (n : nat),
    model Demo.running = Some m /\
    open_breeds_json Demo.env = Ok (breeds Demo.running) /\
    py_len (breeds Demo.running) = Ok n /\
    arch m = main_architecture n /\
    In (Dense n "softmax") (layers (arch m)).
Proof.
  apply (@startup_aligns_model_with_breeds Demo.env Demo.running).
  vm_compute. reflexivity.
Defined.

(** X3.  [load_breeds] catches [FileNotFoundError] only: any other
    failure to open or parse [breeds.json] (a permission error, invalid
    JSON) leaves [load_breeds] and with it [startup_event] by the same
    exception, with both globals untouched. *)
Theorem startup_reraises_breeds_errors :
  forall (E : Env) (e : Exn) (s : State),
    open_breeds_json E = Raise e ->
    is_file_not_found e = false ->
    load_breeds E s = (Raise e, s) /\
    startup_event E s = (Raise e, s).
Proof.
  intros E e s Hopen Hnf.
  assert (Hl : load_breeds E s = (Raise e, s)).
  { unfold load_breeds, try_catch, lift. rewrite Hopen.
    destruct e as [code d|[] msg]; try reflexivity. discriminate. }
  split; [exact Hl|].
  unfold startup_event, bind at 1. now rewrite Hl.
Qed.

Lemma startup_reraises_breeds_errors_witness :
  load_breeds Demo.bad_json_env initial_state =
    (Raise (PyExc JSONDecodeError "Expecting value"), initial_state) /\
  startup_event Demo.bad_json_env initial_state =
    (Raise (PyExc JSONDecodeError "Expecting value"), initial_state).
Proof.
  apply (@startup_reraises_breeds_errors Demo.bad_json_env
           (PyExc JSONDecodeError "Expecting value") initial_state);
    reflexivity.
Defined.

(* ===================================================================== *)
(** ** What the handlers can answer *)
(* ===================================================================== *)

Section Outcomes.

Variable E : Env.

Lemma plain_py_len (v : JSON) : plain (py_len v) = true.
Proof. destruct v; reflexivity. Qed.

Lemma plain_py_iter (v : JSON) : plain (py_iter v) = true.
Proof. destruct v; reflexivity. Qed.

Lemma plain_py_display (v : JSON) : plain (py_display E v) = true.
Proof. destruct v; reflexivity. Qed.

Lemma plain_map_result {A B : Type} (f : A -> Result B) (l : list A) :
  (forall x, plain (f x) = true) -> plain (map_result f l) = true.
Proof.
  intros Hf. induction l as [|x l IH]; cbn [map_result]; [reflexivity|].
  specialize (Hf x). destruct (f x) as [y|e]; [|exact Hf].
  destruct (map_result f l); [reflexivity|exact IH].
Qed.

Lemma plain_display_all (v : JSON) : plain (display_all E v) = true.
Proof.
  unfold display_all. pose proof (plain_py_iter v) as Hi.
  destruct (py_iter v) as [items|e]; [|exact Hi].
  apply plain_map_result. intros x.
  pose proof (plain_py_display x) as Hd.
  destruct (py_display E x); [reflexivity|exact Hd].
Qed.

(** A response made from an outcome without [HTTPException] is 200 or
    500. *)
Lemma respond_plain (r : Result JSON) :
  plain r = true -> status (respond r) = 200%nat \/ status (respond r) = 500%nat.
Proof.
  destruct r as [b|[c d|k m]]; cbn; intros H; try discriminate; auto.
Qed.

Lemma read_root_plain (s : State) : plain (fst (read_root s)) = true.
Proof.
  unfold read_root, bind, global_model, global_breeds, lift, ret.
  cbn beta.
  destruct (py_truthy (breeds s)); [|reflexivity].
  pose proof (plain_py_len (breeds s)) as H.
  destruct (py_len (breeds s)); [reflexivity|exact H].
Qed.

Lemma get_breeds_plain (s : State) : plain (fst (get_breeds E s)) = true.
Proof.
  unfold get_breeds, bind, global_breeds, lift, ret. cbn beta.
  pose proof (plain_py_len (breeds s)) as H.
  destruct (py_len (breeds s)); [|exact H].
  pose proof (plain_display_all (breeds s)) as Hd.
  destruct (display_all E (breeds s)); [reflexivity|exact Hd].
Qed.

(** Past the model check a guarded handler answers 200 or 500. *)
Lemma guarded_status (c : M JSON) (d : Exn -> string) (s : State) :
  let r := fst (try_catch c (fun e => raise (HTTPException 500 (d e))) s) in
  status (respond r) = 200%nat \/ status (respond r) = 500%nat.
Proof.
  unfold try_catch, raise. destruct (c s) as [[b|e] s']; cbn; auto.
Qed.

(** With a model loaded no endpoint answers 503. *)
Lemma loaded_never_503 (req : Request) (s : State) (m : Model) :
  model s = Some m -> status (fst (serve E req s)) <> 503%nat.
Proof.
  intros Hm. unfold serve.
  destruct req as [| | | |file]; cbn [handler].
  - pose proof (read_root_plain s) as H.
    destruct (read_root s) as [r s']. cbn [fst] in *.
    destruct (respond_plain _ H) as [-> | ->]; discriminate.
  - unfold health_check, bind, global_model, ret. cbn. discriminate.
  - unfold model_info, bind at 1, global_model. cbn beta. rewrite Hm.
    match goal with
    | |- context [try_catch ?c (fun e => raise (HTTPException 500 (@?d e))) s] =>
        pose proof (guarded_status c d s) as H
    end.
    cbn zeta in H.
    destruct (try_catch _ _ s) as [r s']. cbn [fst] in *.
    destruct H as [-> | ->]; discriminate.
  - pose proof (get_breeds_plain s) as H.
    destruct (get_breeds E s) as [r s']. cbn [fst] in *.
    destruct (respond_plain _ H) as [-> | ->]; discriminate.
  - unfold predict_breed, bind at 1, global_model. cbn beta. rewrite Hm.
    unfold bind at 1, lift at 1, content_type_is_image.
    destruct (content_type file) as [ct|]; [|cbn; discriminate].
    destruct (String.prefix "image/" ct); cbn [negb];
      [|cbn; discriminate].
    match goal with
    | |- context [try_catch ?c (fun e => raise (HTTPException 500 (@?d e))) s] =>
        pose proof (guarded_status c d s) as H
    end.
    cbn zeta in H.
    destruct (try_catch _ _ s) as [r s']. cbn [fst] in *.
    destruct H as [-> | ->]; discriminate.
Qed.

End Outcomes.

(** X4.  Once start-up from a fresh process has returned, no endpoint
    answers 503 any more, whatever requests were handled in between:
    "Model not loaded" can only be seen on a process whose start-up did
    not complete. *)
Theorem no_503_after_startup :
  forall (E : Env) (s' : State) (before : list Request) (req : Request),
    startup_event E initial_state = (Ok tt, s') ->
    status (fst (serve E req (serve_all E before s'))) <> 503%nat.
Proof.
  intros E s' before req H. rewrite startup_run in H.
  destruct (open_breeds_json E) as [b|[code d|[] msg]]; try discriminate.
  destruct (py_len b) as [n|e]; [|discriminate].
  destruct (keras_build E (main_architecture n)) as [[]|e]; [|discriminate].
  injection H as <-.
  destruct (serve_all_frame E before
              (mkState (Some (mkModel (main_architecture n)
                 (if os_path_exists E checkpoint then
                    match keras_load_weights E (main_architecture n)
                            checkpoint with
                    | Ok w => Trained w
                    | Raise _ => Untrained
                    end
                  else Untrained))) b [])) as [Hm _].
  cbn [model] in Hm.
  eapply loaded_never_503. exact Hm.
Qed.

Lemma no_503_after_startup_witness :
  status (fst (serve Demo.env (PostPredict Demo.untyped_upload)
                 (serve_all Demo.env [GetModelInfo; PostPredict Demo.upload]
                    Demo.running))) <> 503%nat.
Proof.
  apply (@no_503_after_startup Demo.env Demo.running
           [GetModelInfo; PostPredict Demo.upload]
           (PostPredict Demo.untyped_upload)).
  vm_compute. reflexivity.
Defined.

Section Root.

Lemma falsy_sized_is_empty (v : JSON) (n : nat) :
  py_len v = Ok n -> py_truthy v = false -> n = 0%nat.
Proof.
  destruct v as [| | | |s|l|l]; cbn; try discriminate; intros H Ht;
    injection H as <-.
  - destruct s; [reflexivity|discriminate].
  - destruct l; [reflexivity|discriminate].
  - destruct l; [reflexivity|discriminate].
Qed.

End Root.

(** X5.  [GET /] reports [total_breeds = len(breeds)] whenever [breeds]
    has a length, an empty value included, and 0 while [breeds] is still
    [None]; [model_loaded] tells whether [model] is set.  The state is
    left as it was. *)
Theorem read_root_reports_totals :
  forall (s : State) (n : nat),
    py_len (breeds s) = Ok n \/ (breeds s = JNull /\ n = 0%nat) ->
    read_root s =
      (Ok (JObj
         [ ("message", JStr "Dog Breed Predictor API with Real ML Model!");
           ("status", JStr "healthy");
           ("model_loaded", JBool (is_some (model s)));
           ("total_breeds", JInt (Z.of_nat n));
           ("version", JStr "2.0.0") ]), s).
Proof.
  intros s n H.
  unfold read_root, bind, global_model, global_breeds, lift, ret. cbn beta.
  destruct H as [Hn|[Hb ->]].
  - destruct (py_truthy (breeds s)) eqn:Ht.
    + now rewrite Hn.
    + now rewrite (falsy_sized_is_empty _ Hn Ht).
  - rewrite Hb. reflexivity.
Qed.

Lemma read_root_reports_totals_witness :
  read_root Demo.running =
    (Ok (JObj
       [ ("message", JStr "Dog Breed Predictor API with Real ML Model!");
         ("status", JStr "healthy");
         ("model_loaded", JBool (is_some (model Demo.running)));
         ("total_breeds", JInt (Z.of_nat 4));
         ("version", JStr "2.0.0") ]), Demo.running).
Proof.
  apply (@read_root_reports_totals Demo.running 4).
  left. reflexivity.
Defined.

Section BreedsEndpoint.

Variable E : Env.

Lemma display_items_ok (items : list JSON) :
  forallb is_str items = true ->
  exists names,
    map_result
      (fun breed =>
         match py_display E breed with
         | Raise e => Raise e
         | Ok d => Ok (JStr d)
         end) items = Ok names /\
    List.length names = List.length items.
Proof.
  induction items as [|x items IH]; cbn [forallb map_result]; intros H.
  - now exists [].
  - apply andb_true_iff in H as [Hx Hi].
    destruct x; try discriminate. cbn [py_display].
    destruct (IH Hi) as (names & -> & Hlen).
    eexists. split; [reflexivity|]. cbn. now rewrite Hlen.
Qed.

Lemma display_items_raise (items : list JSON) :
  forallb is_str items = false ->
  exists msg,
    map_result
      (fun breed =>
         match py_display E breed with
         | Raise e => Raise e
         | Ok d => Ok (JStr d)
         end) items = Raise (PyExc AttributeError msg).
Proof.
  induction items as [|x items IH]; cbn [forallb map_result]; intros H;
    [discriminate|].
  destruct x; cbn [is_str py_display andb] in *;
    try (eexists; reflexivity).
  destruct (IH H) as (msg & ->). eexists; reflexivity.
Qed.

End BreedsEndpoint.

(** X6.  With a list in [breeds], [GET /breeds] answers 200 exactly when
    every item of the list is a string; one item of another type makes
    [.replace] raise, nothing catches it, and the answer is 500.  While
    [breeds] is still [None] the answer is 500 as well.  The state is
    left as it was either way. *)
Theorem get_breeds_status :
  forall (E : Env) (s : State),
    (forall items, breeds s = JArr items ->
       (status (fst (serve E GetBreeds s)) = 200%nat <->
        forallb is_str items = true) /\
       (forallb is_str items = false ->
        fst (serve E GetBreeds s) =
          mkResponse 500 (JStr "Internal Server Error"))) /\
    (breeds s = JNull ->
     fst (serve E GetBreeds s) =
       mkResponse 500 (JStr "Internal Server Error")) /\
    snd (serve E GetBreeds s) = s.
Proof.
  intros E s.
  assert (Hrun : forall items, breeds s = JArr items ->
            get_breeds E s =
              (match map_result
                       (fun breed =>
                          match py_display E breed with
                          | Raise e => Raise e
                          | Ok d => Ok (JStr d)
                          end) items with
               | Ok names =>
                   Ok (JObj [("total_breeds",
                              JInt (Z.of_nat (List.length items)));
                             ("breeds", JArr names)])
               | Raise e => Raise e
               end, s)).
  { intros items Hb.
    unfold get_breeds, bind, global_breeds, lift, ret. cbn beta.
    rewrite Hb. cbn [py_len]. unfold display_all. cbn [py_iter].
    destruct (map_result _ items); reflexivity. }
  split; [|split].
  - intros items Hb. unfold serve. cbn [handler]. rewrite (Hrun _ Hb).
    destruct (forallb is_str items) eqn:Hall.
    + destruct (@display_items_ok E items Hall) as (names & -> & _).
      cbn. split; [split; intros _; reflexivity|discriminate].
    + destruct (@display_items_raise E items Hall) as (msg & ->).
      cbn. split; [split; discriminate|reflexivity].
  - intros Hb. unfold serve. cbn [handler].
    unfold get_breeds, bind, global_breeds, lift. cbn beta.
    rewrite Hb. reflexivity.
  - unfold serve. cbn [handler].
    pose proof (stateless_handler E GetBreeds (agree_refl s)) as [_ H].
    cbn [handler] in H.
    unfold get_breeds, bind, global_breeds, lift, ret in *. cbn beta in *.
    destruct (py_len (breeds s)); [|reflexivity].
    destruct (display_all E (breeds s)); reflexivity.
Qed.

Example breeds_with_a_number :
  fst (startup_event Demo.mixed_breeds_env initial_state) = Ok tt /\
  fst (serve Demo.mixed_breeds_env GetBreeds
         (snd (startup_event Demo.mixed_breeds_env initial_state))) =
    mkResponse 500 (JStr "Internal Server Error").
Proof. split; vm_compute; reflexivity. Qed.

(** X7.  [GET /model/info]: 503 while no model is set; with a model, a
    list of names in [breeds] and a [title] that keeps Python's promise,
    200 with [total_breeds = len(breeds)], [image_size = 224] and, as
    [sample_breeds], the first ten names (all of them when there are
    fewer), each with its underscores replaced by spaces and
    title-cased; when Keras fails to describe the model or [breeds] has
    no length, the exception is caught and answered with 500 and its
    text.  The state is left as it was in every case. *)
Theorem model_info_answers :
  forall (E : Env) (s : State),
    (model s = None ->
     serve E GetModelInfo s =
       (mkResponse 503 (JObj [("detail", JStr "Model not loaded")]), s)) /\
    (forall mdl bs input_shape output_shape total_parameters,
        title_ok (str_title E) ->
        model s = Some mdl ->
        breeds s = JArr (map JStr bs) ->
        keras_summary E mdl =
          Ok (input_shape, output_shape, total_parameters) ->
        exists sample : list string,
          serve E GetModelInfo s =
            (mkResponse 200
               (JObj
                  [ ("model_loaded", JBool true);
                    ("input_shape", JStr input_shape);
                    ("output_shape", JStr output_shape);
                    ("total_parameters", JInt (Z.of_nat total_parameters));
                    ("total_breeds", JInt (Z.of_nat (List.length bs)));
                    ("image_size", JInt 224);
                    ("sample_breeds", JArr (map JStr sample)) ]), s) /\
          List.length sample = Nat.min 10 (List.length bs) /\
          (forall (i : nat) (b : string),
              (i < 10)%nat ->
              nth_error bs i = Some b ->
              exists d, nth_error sample i = Some d /\ displayed E b d)) /\
    (forall mdl e,
        model s = Some mdl ->
        keras_summary E mdl = Raise e ->
        serve E GetModelInfo s =
          (mkResponse 500
             (JObj [("detail",
                     JStr ("Error getting model info: " ++ exn_str e))]),
           s)) /\
    (forall mdl info e,
        model s = Some mdl ->
        keras_summary E mdl = Ok info ->
        py_len (breeds s) = Raise e ->
        serve E GetModelInfo s =
          (mkResponse 500
             (JObj [("detail",
                     JStr ("Error getting model info: " ++ exn_str e))]),
           s)).
Proof.
  intros E s. unfold serve. cbn [handler]. unfold model_info.
  split; [|split; [|split]].
  - intros Hm. unfold bind at 1, global_model. cbn beta.
    rewrite Hm. reflexivity.
  - intros mdl bs i o n Htitle Hm Hb Hsum.
    exists (map (display E) (firstn 10 bs)). split; [|split].
    + unfold bind at 1, global_model. cbn beta. rewrite Hm.
      unfold try_catch, bind, lift, global_breeds, ret. cbn beta.
      rewrite Hsum, Hb. cbn [py_len py_slice_to].
      rewrite firstn_map, display_all_names, length_map, map_map.
      reflexivity.
    + rewrite length_map, length_firstn. reflexivity.
    + intros k b Hk Hbk. exists (display E b).
      split; [|now apply display_displayed].
      rewrite nth_error_map, nth_error_firstn.
      destruct (Nat.ltb_spec k 10) as [_|Hge]; [|lia].
      now rewrite Hbk.
  - intros mdl e Hm Hsum.
    unfold bind at 1, global_model. cbn beta. rewrite Hm.
    unfold try_catch, bind, lift. now rewrite Hsum.
  - intros mdl [[i o] n] e Hm Hsum Hlen.
    unfold bind at 1, global_model. cbn beta. rewrite Hm.
    unfold try_catch, bind, lift, global_breeds. cbn beta.
    now rewrite Hsum, Hlen.
Qed.

Example model_info_after_startup :
  fst (serve Demo.env GetModelInfo Demo.running) =
    mkResponse 200
      (JObj
         [ ("model_loaded", JBool true);
           ("input_shape", JStr "(None, 224, 224, 3)");
           ("output_shape", JStr "(None, 4)");
           ("total_parameters", JInt 4100);
           ("total_breeds", JInt 4);
           ("image_size", JInt 224);
           ("sample_breeds",
            JArr [JStr "Golden Retriever"; JStr "Pug";
                  JStr "Border Collie"; JStr "Shih-Tzu"]) ]).
Proof. vm_compute. reflexivity. Qed.

Example model_info_before_startup :
  fst (serve Demo.env GetModelInfo initial_state) =
    mkResponse 503 (JObj [("detail", JStr "Model not loaded")]).
Proof. reflexivity. Qed.

(* ===================================================================== *)
(** ** The top [k] predictions, for any [k] *)
(* ===================================================================== *)

Section TopK.

Variable f : list Q -> list nat.
Hypothesis f_ok : argsort_ok f.
Variable p : list Q.
Variable k : nat.

Lemma StronglySorted_app_le {A : Type} (R : A -> A -> Prop)
    (a b : list A) :
  StronglySorted R (a ++ b) ->
  forall x y, In x a -> In y b -> R x y.
Proof.
  induction a as [|z a IH]; cbn; intros Hs x y Hx Hy; [contradiction|].
  apply StronglySorted_inv in Hs as [Hs Hz].
  destruct Hx as [<-|Hx]; [|now apply IH].
  rewrite Forall_forall in Hz. apply Hz. apply in_or_app. now right.
Qed.

Lemma argsort_nodup : NoDup (f p).
Proof.
  destruct (f_ok p) as [Hp _].
  apply (Permutation_NoDup (Permutation_sym Hp)). apply seq_NoDup.
Qed.

Lemma top_indices_nodup : NoDup (rev (Np.last_k k (f p))).
Proof.
  apply NoDup_rev. unfold Np.last_k.
  pose proof argsort_nodup as H.
  rewrite <- (firstn_skipn (List.length (f p) - k) (f p)) in H.
  now apply NoDup_app_remove_l in H.
Qed.

(** A position left out holds no more than any position taken. *)
Lemma top_indices_dominate (i j : nat) :
  In i (rev (Np.last_k k (f p))) ->
  (j < List.length p)%nat ->
  ~ In j (rev (Np.last_k k (f p))) ->
  (val p j <= val p i)%Q.
Proof.
  unfold Np.last_k. intros Hi Hj Hnj.
  apply in_rev in Hi.
  assert (Hja : In j (firstn (List.length (f p) - k) (f p))).
  { apply (argsort_in f_ok) in Hj.
    rewrite <- (firstn_skipn (List.length (f p) - k) (f p)) in Hj.
    apply in_app_or in Hj as [Hj|Hj]; [assumption|].
    exfalso. apply Hnj. now apply in_rev in Hj. }
  pose proof (proj2 (f_ok p)) as Hs.
  rewrite <- (firstn_skipn (List.length (f p) - k) (f p)) in Hs.
  change (le_at p j i). eapply StronglySorted_app_le; eassumption.
Qed.

End TopK.

(** X8.  For any [top_k >= 1], with a list of names in [breeds], one
    output unit per name and an [argsort] that keeps numpy's promise,
    [get_top_predictions] returns the entries of [min top_k (len p)]
    different positions, and these are largest: no position left out
    holds more than a position listed. *)
Theorem top_k_are_the_largest :
  forall (E : Env) (s : State) (bs : list string) (p : list Q) (k : nat),
    argsort_ok (np_argsort E) ->
    breeds s = JArr (map JStr bs) ->
    List.length p = List.length bs ->
    (0 < k)%nat ->
    exists idxs : list nat,
      get_top_predictions E [p] k s = (Ok (map (entry_at E bs p) idxs), s) /\
      List.length idxs = Nat.min k (List.length p) /\
      NoDup idxs /\
      (forall i j, In i idxs -> (j < List.length p)%nat -> ~ In j idxs ->
                   (val p j <= val p i)%Q).
Proof.
  intros E s bs p k Hsort Hb Hlen Hk.
  exists (rev (Np.last_k k (np_argsort E p))).
  split; [|split; [|split]].
  - apply get_top_predictions_run; [assumption|].
    eapply Forall_impl; [|apply (top_indices_in_range Hsort)].
    cbn. intros i Hi. lia.
  - apply (top_indices_length Hsort).
  - apply (top_indices_nodup Hsort).
  - intros i j. apply (top_indices_dominate Hsort).
Qed.

Lemma top_k_are_the_largest_witness :
  exists idxs : list nat,
    get_top_predictions Demo.env [Demo.probabilities] 2 Demo.running =
      (Ok (map (entry_at Demo.env Demo.breed_names Demo.probabilities) idxs),
       Demo.running) /\
    List.length idxs = Nat.min 2 (List.length Demo.probabilities) /\
    NoDup idxs /\
    (forall i j, In i idxs -> (j < List.length Demo.probabilities)%nat ->
                 ~ In j idxs ->
                 (val Demo.probabilities j <= val Demo.probabilities i)%Q).
Proof.
  apply (@top_k_are_the_largest Demo.env Demo.running Demo.breed_names
           Demo.probabilities 2).
  - exact argsort_stable_ok.
  - reflexivity.
  - reflexivity.
  - lia.
Defined.

(* ===================================================================== *)
(** ** A whole [/predict] exchange *)
(* ===================================================================== *)

Section PredictExchange.

Variable E : Env.

(** The successful run with the response written out. *)
Lemma predict_breed_full (file : UploadFile) (s : State) (mdl : Model)
    (ct : string) (bytes : list Z) (im : Image) (p : list Q)
    (bs : list string) (i : nat) (b : string) (m : Q) :
  model s = Some mdl ->
  content_type file = Some ct ->
  String.prefix "image/" ct = true ->
  read file = Ok bytes ->
  pil_open E bytes = Ok im ->
  keras_predict E mdl (preprocess_image E im) = Ok [p] ->
  breeds s = JArr (map JStr bs) ->
  Np.argmax p = Ok i ->
  nth_error bs i = Some b ->
  Np.max p = Ok m ->
  Forall (fun i => (i < List.length p)%nat /\ (i < List.length bs)%nat)
         (rev (Np.last_k 3 (np_argsort E p))) ->
  predict_breed E file s =
    (Ok (JObj
      [ ("success", JBool true);
        ("filename", opt_str (filename file));
        ("image_info", JObj
           [ ("width", JInt (Z.of_nat (fst (size im))));
             ("height", JInt (Z.of_nat (snd (size im))));
             ("format", opt_str (format im));
             ("size_kb",
              JFloat (py_round
                        (inject_Z (Z.of_nat (List.length bytes)) / 1024)
                        2)) ]);
        ("prediction", JObj
           [ ("breed", JStr (display E b));
             ("confidence", JFloat m);
             ("confidence_percentage", JFloat (py_round (m * 100) 1)) ]);
        ("top_3_predictions",
         JArr (map (entry_at E bs p) (rev (Np.last_k 3 (np_argsort E p)))));
        ("model_info", JObj
           [ ("model_type", JStr "MobileNetV2 + Custom Dense Layer");
             ("total_breeds", JInt (Z.of_nat (List.length bs)));
             ("image_size_used", JInt 224);
             ("model_trained", JBool (Np.gtb m (1#10))) ]) ]),
     mkState (model s) (breeds s)
             (trace s ++ [EvFileRead; EvImageOpen; EvPredict])).
Proof.
  intros Hm Hct Hpre Hread Hopen Hpred Hb Harg Hbi Hmax Htop.
  destruct s as [sm sb st]. cbn [model breeds trace] in *. subst sm sb.
  unfold predict_breed, bind at 1, global_model. cbn [model].
  unfold bind at 1, lift at 1, content_type_is_image.
  rewrite Hct, Hpre. cbn [negb].
  unfold try_catch, predict_body.
  unfold bind at 1, emit at 1. cbn [model breeds trace].
  unfold bind at 1, lift at 1. rewrite Hread.
  unfold bind at 1, emit at 1. cbn [model breeds trace].
  unfold bind at 1, lift at 1. rewrite Hopen.
  destruct (size im) as [width height] eqn:Hsize.
  unfold bind at 1, model_predict, bind at 1, global_model. cbn [model].
  unfold bind at 1, emit at 1. cbn [model breeds trace].
  unfold lift at 1. rewrite Hpred.
  unfold bind at 1.
  erewrite get_pred_label_run; [|reflexivity|eassumption|eassumption].
  unfold bind at 1, lift at 1. cbn [row0].
  unfold bind at 1, lift at 1. rewrite Hmax.
  unfold bind at 1.
  erewrite get_top_predictions_run; [|reflexivity|assumption].
  unfold bind at 1, lift at 1. cbn [py_display].
  unfold bind at 1, global_breeds. cbn [breeds].
  unfold bind at 1, lift at 1. cbn [py_len].
  unfold ret. rewrite length_map.
  rewrite <- !app_assoc. cbn [app fst snd]. reflexivity.
Qed.

(** The run in which the upload cannot be read or decoded. *)
Lemma predict_breed_undecodable (file : UploadFile) (s : State)
    (mdl : Model) (ct : string) :
  model s = Some mdl ->
  content_type file = Some ct ->
  String.prefix "image/" ct = true ->
  (forall e, read file = Raise e ->
     predict_breed E file s =
       (Raise (HTTPException 500 ("Error processing image: " ++ exn_str e)),
        mkState (model s) (breeds s) (trace s ++ [EvFileRead]))) /\
  (forall bytes e, read file = Ok bytes -> pil_open E bytes = Raise e ->
     predict_breed E file s =
       (Raise (HTTPException 500 ("Error processing image: " ++ exn_str e)),
        mkState (model s) (breeds s)
                (trace s ++ [EvFileRead; EvImageOpen]))).
Proof.
  intros Hm Hct Hpre.
  destruct s as [sm sb st]. cbn [model breeds trace] in *. subst sm.
  split.
  - intros e Hread.
    unfold predict_breed, bind at 1, global_model. cbn [model].
    unfold bind at 1, lift at 1, content_type_is_image.
    rewrite Hct, Hpre. cbn [negb].
    unfold try_catch, predict_body.
    unfold bind at 1, emit at 1. cbn [model breeds trace].
    unfold bind at 1, lift at 1. rewrite Hread. reflexivity.
  - intros bytes e Hread Hopen.
    unfold predict_breed, bind at 1, global_model. cbn [model].
    unfold bind at 1, lift at 1, content_type_is_image.
    rewrite Hct, Hpre. cbn [negb].
    unfold try_catch, predict_body.
    unfold bind at 1, emit at 1. cbn [model breeds trace].
    unfold bind at 1, lift at 1. rewrite Hread.
    unfold bind at 1, emit at 1. cbn [model breeds trace].
    unfold bind at 1, lift at 1. rewrite Hopen.
    unfold raise. rewrite <- !app_assoc. reflexivity.
Qed.

End PredictExchange.

Section Ready.

Variable E : Env.

(** What a run of [predict_breed] needs of the output vector. *)
Lemma prediction_ready (bs : list string) (p : list Q) :
  argsort_ok (np_argsort E) ->
  p <> [] ->
  List.length p = List.length bs ->
  exists i b m,
    Np.argmax p = Ok i /\ nth_error bs i = Some b /\ Np.max p = Ok m /\
    Forall (fun i => (i < List.length p)%nat /\ (i < List.length bs)%nat)
           (rev (Np.last_k 3 (np_argsort E p))).
Proof.
  intros Hsort Hne Hlen.
  destruct (argmax_spec Hne) as (i & m & Harg & Hmax & Hnth & _ & _).
  assert (Hi : (i < List.length bs)%nat).
  { rewrite <- Hlen. apply nth_error_Some. congruence. }
  destruct (nth_error bs i) as [b|] eqn:Hbi;
    [|apply nth_error_None in Hbi; lia].
  exists i, b, m. repeat split; try assumption; try reflexivity.
  eapply Forall_impl; [|apply (top_indices_in_range Hsort)].
  cbn. intros j Hj. lia.
Qed.

End Ready.

(** X9.  An upload that cannot be read, or whose bytes PIL cannot open,
    never reaches the model: [predict_breed] answers 500 with
    "Error processing image: " and the exception's text, and the calls it
    made stop at the read or at the open. *)
Theorem bad_upload_never_reaches_model :
  forall (E : Env) (file : UploadFile) (s : State) (mdl : Model)
         (ct : string) (e : Exn),
    model s = Some mdl ->
    content_type file = Some ct ->
    String.prefix "image/" ct = true ->
    read file = Raise e \/
    (exists bytes, read file = Ok bytes /\ pil_open E bytes = Raise e) ->
    exists evs : list Event,
      serve E (PostPredict file) s =
        (mkResponse 500
           (JObj [("detail",
                   JStr ("Error processing image: " ++ exn_str e))]),
         mkState (model s) (breeds s) (trace s ++ evs)) /\
      ~ In EvPredict evs.
Proof.
  intros E file s mdl ct e Hm Hct Hpre H.
  destruct (@predict_breed_undecodable E file s mdl ct Hm Hct Hpre)
    as [Hread Hopen].
  unfold serve. cbn [handler].
  destruct H as [H|(bytes & Hr & Ho)].
  - exists [EvFileRead]. rewrite (Hread e H). split; [reflexivity|].
    intros [Hin|[]]; discriminate.
  - exists [EvFileRead; EvImageOpen]. rewrite (Hopen bytes e Hr Ho).
    split; [reflexivity|].
    intros [Hin|[Hin|[]]]; discriminate.
Qed.

Lemma bad_upload_never_reaches_model_witness :
  exists evs : list Event,
    serve Demo.env (PostPredict Demo.short_upload) Demo.running =
      (mkResponse 500
         (JObj [("detail",
                 JStr ("Error processing image: " ++
                       exn_str (PyExc LibraryError
                                  "cannot identify image file")))]),
       mkState (model Demo.running) (breeds Demo.running)
               (trace Demo.running ++ evs)) /\
    ~ In EvPredict evs.
Proof.
  apply (@bad_upload_never_reaches_model Demo.env Demo.short_upload
           Demo.running
           (mkModel (main_architecture 4) (Trained [1#2; 1#3]%Q))
           "image/png"
           (PyExc LibraryError "cannot identify image file")).
  - reflexivity.
  - reflexivity.
  - reflexivity.
  - right. exists [137; 80]%Z. split; reflexivity.
Defined.

(** X10.  End to end: after a start-up that returned on a [breeds.json]
    holding a list of names, an image upload that decodes and on which
    the model yields one row with one value per name is answered 200,
    and the breed it reports is the entry of [GET /breeds] at position
    [np.argmax] of that row. *)
Theorem predicted_breed_is_listed :
  forall (E : Env) (s : State) (file : UploadFile) (ct : string)
         (bytes : list Z) (im : Image) (p : list Q) (bs : list string),
    startup_event E initial_state = (Ok tt, s) ->
    open_breeds_json E = Ok (JArr (map JStr bs)) ->
    argsort_ok (np_argsort E) ->
    content_type file = Some ct ->
    String.prefix "image/" ct = true ->
    read file = Ok bytes ->
    pil_open E bytes = Ok im ->
    (forall mdl, model s = Some mdl ->
                 keras_predict E mdl (preprocess_image E im) = Ok [p]) ->
    p <> [] ->
    List.length p = List.length bs ->
    exists (body prediction : JSON) (b : string) (names : list JSON)
           (i : nat),
      fst (serve E (PostPredict file) s) = mkResponse 200 body /\
      field "prediction" body = Some prediction /\
      field "breed" prediction = Some (JStr b) /\
      fst (serve E GetBreeds s) =
        mkResponse 200
          (JObj [("total_breeds", JInt (Z.of_nat (List.length bs)));
                 ("breeds", JArr names)]) /\
      Np.argmax p = Ok i /\
      nth_error names i = Some (JStr b).
Proof.
  intros E s file ct bytes im p bs Hstart Hopen Hsort Hct Hpre Hread
         Himg Hpred Hne Hlen.
  rewrite startup_run, Hopen in Hstart. cbn [py_len] in Hstart.
  destruct (keras_build E _) as [[]|e]; [|discriminate].
  injection Hstart as <-.
  match goal with
  | |- context [mkState (Some ?m) _ _] => set (mdl := m) in *
  end.
  set (s := mkState (Some mdl) (JArr (map JStr bs)) []) in *.
  destruct (prediction_ready E bs Hsort Hne Hlen)
    as (i & b & m & Harg & Hbi & Hmax & Htop).
  pose proof (@predict_breed_full E file s mdl ct bytes im p bs i b m
                eq_refl Hct Hpre Hread Himg (Hpred mdl eq_refl) eq_refl
                Harg Hbi Hmax Htop) as Hrun.
  eexists. eexists. exists (display E b).
  exists (map (fun b => JStr (display E b)) bs), i.
  unfold serve. cbn [handler]. rewrite Hrun.
  split; [reflexivity|]. split; [reflexivity|]. split; [reflexivity|].
  split; [|split; [exact Harg|]].
  - unfold get_breeds, bind, global_breeds, lift, ret. cbn beta.
    subst s. cbn [breeds py_len].
    rewrite display_all_names, length_map. reflexivity.
  - now rewrite nth_error_map, Hbi.
Qed.

Lemma predicted_breed_is_listed_witness :
  exists (body prediction : JSON) (b : string) (names : list JSON)
         (i : nat),
    fst (serve Demo.env (PostPredict Demo.upload) Demo.running) =
      mkResponse 200 body /\
    field "prediction" body = Some prediction /\
    field "breed" prediction = Some (JStr b) /\
    fst (serve Demo.env GetBreeds Demo.running) =
      mkResponse 200
        (JObj [("total_breeds",
                JInt (Z.of_nat (List.length Demo.breed_names)));
               ("breeds", JArr names)]) /\
    Np.argmax Demo.probabilities = Ok i /\
    nth_error names i = Some (JStr b).
Proof.
  apply (@predicted_breed_is_listed Demo.env Demo.running Demo.upload
           "image/png" [10; 20; 30; 300]%Z Demo.upload_image
           Demo.probabilities Demo.breed_names).
  - vm_compute. reflexivity.
  - reflexivity.
  - exact argsort_stable_ok.
  - reflexivity.
  - reflexivity.
  - reflexivity.
  - reflexivity.
  - intros mdl _. reflexivity.
  - discriminate.
  - reflexivity.
Defined.

(** X11.  A 200 answer of [/predict] describes the upload as it came in:
    [filename] is the upload's, [width], [height] and [format] are those
    of the decoded picture before it is resized to 224x224, [size_kb] is
    the byte count over 1024 rounded to two places; [total_breeds] is
    [len(breeds)] and [model_trained] says whether the top confidence
    exceeds 0.1. *)
Theorem predict_describes_upload :
  forall (E : Env) (file : UploadFile) (s : State) (mdl : Model)
         (ct : string) (bytes : list Z) (im : Image) (p : list Q)
         (bs : list string),
    model s = Some mdl ->
    breeds s = JArr (map JStr bs) ->
    argsort_ok (np_argsort E) ->
    content_type file = Some ct ->
    String.prefix "image/" ct = true ->
    read file = Ok bytes ->
    pil_open E bytes = Ok im ->
    keras_predict E mdl (preprocess_image E im) = Ok [p] ->
    p <> [] ->
    List.length p = List.length bs ->
    exists (body : JSON) (m : Q),
      fst (serve E (PostPredict file) s) = mkResponse 200 body /\
      Np.max p = Ok m /\
      field "filename" body = Some (opt_str (filename file)) /\
      field "image_info" body =
        Some (JObj
          [ ("width", JInt (Z.of_nat (fst (size im))));
            ("height", JInt (Z.of_nat (snd (size im))));
            ("format", opt_str (format im));
            ("size_kb",
             JFloat (py_round
                       (inject_Z (Z.of_nat (List.length bytes)) / 1024)
                       2)) ]) /\
      field "model_info" body =
        Some (JObj
          [ ("model_type", JStr "MobileNetV2 + Custom Dense Layer");
            ("total_breeds", JInt (Z.of_nat (List.length bs)));
            ("image_size_used", JInt 224);
            ("model_trained", JBool (Np.gtb m (1#10))) ]).
Proof.
  intros E file s mdl ct bytes im p bs Hm Hb Hsort Hct Hpre Hread Himg
         Hpred Hne Hlen.
  destruct (prediction_ready E bs Hsort Hne Hlen)
    as (i & b & m & Harg & Hbi & Hmax & Htop).
  pose proof (@predict_breed_full E file s mdl ct bytes im p bs i b m
                Hm Hct Hpre Hread Himg Hpred Hb Harg Hbi Hmax Htop)
    as Hrun.
  eexists. exists m. unfold serve. cbn [handler]. rewrite Hrun.
  repeat split; try reflexivity. exact Hmax.
Qed.

Lemma predict_describes_upload_witness :
  exists (body : JSON) (m : Q),
    fst (serve Demo.env (PostPredict Demo.upload) Demo.running) =
      mkResponse 200 body /\
    Np.max Demo.probabilities = Ok m /\
    field "filename" body = Some (opt_str (filename Demo.upload)) /\
    field "image_info" body =
      Some (JObj
        [ ("width", JInt (Z.of_nat (fst (size Demo.upload_image))));
          ("height", JInt (Z.of_nat (snd (size Demo.upload_image))));
          ("format", opt_str (format Demo.upload_image));
          ("size_kb",
           JFloat (py_round
                     (inject_Z (Z.of_nat (List.length [10; 20; 30; 300]%Z))
                      / 1024)
                     2)) ]) /\
    field "model_info" body =
      Some (JObj
        [ ("model_type", JStr "MobileNetV2 + Custom Dense Layer");
          ("total_breeds", JInt (Z.of_nat (List.length Demo.breed_names)));
          ("image_size_used", JInt 224);
          ("model_trained", JBool (Np.gtb m (1#10))) ]).
Proof.
  apply (@predict_describes_upload Demo.env Demo.upload Demo.running
           (mkModel (main_architecture 4) (Trained [1#2; 1#3]%Q))
           "image/png" [10; 20; 30; 300]%Z Demo.upload_image
           Demo.probabilities Demo.breed_names).
  - reflexivity.
  - reflexivity.
  - exact argsort_stable_ok.
  - reflexivity.
  - reflexivity.
  - reflexivity.
  - reflexivity.
  - reflexivity.
  - discriminate.
  - reflexivity.
Defined.

Lemma predict_breed_gates_witness :
  (model Demo.running = None ->
   serve Demo.env (PostPredict Demo.upload) Demo.running =
     (mkResponse 503 (JObj [("detail", JStr "Model not loaded")]),
      Demo.running)) /\
  (forall mdl, model Demo.running = Some mdl ->
     String.prefix "image/" "image/png" = false ->
     serve Demo.env (PostPredict Demo.upload) Demo.running =
       (mkResponse 400
          (JObj [("detail",
                  JStr "File must be an image (jpg, png, etc.)")]),
        Demo.running)) /\
  (forall mdl, model Demo.running = Some mdl ->
     String.prefix "image/" "image/png" = true ->
     (forall e, fst (predict_body Demo.env Demo.upload Demo.running) =
                  Raise e ->
        fst (serve Demo.env (PostPredict Demo.upload) Demo.running) =
          mkResponse 500
            (JObj [("detail",
                    JStr ("Error processing image: " ++ exn_str e))])) /\
     (forall body, fst (predict_body Demo.env Demo.upload Demo.running) =
                     Ok body ->
        fst (serve Demo.env (PostPredict Demo.upload) Demo.running) =
          mkResponse 200 body)).
Proof.
  apply (@predict_breed_gates Demo.env Demo.upload Demo.running "image/png").
  reflexivity.
Defined.

(* ===================================================================== *)
(** ** The display form of a breed name *)
(* ===================================================================== *)

Section Display.

Lemma upper_of_lower (c : ascii) :
  PyStr.is_lower c = true ->
  PyStr.is_lower (PyStr.to_upper c) = false /\
  PyStr.is_upper (PyStr.to_upper c) = true /\
  Ascii.eqb (PyStr.to_upper c) "_"%char = false.
Proof.
  destruct c as [[] [] [] [] [] [] [] []]; vm_compute;
    intros H; try discriminate H; repeat split.
Qed.

Lemma lower_of_upper (c : ascii) :
  PyStr.is_upper c = true ->
  PyStr.is_lower (PyStr.to_lower c) = true /\
  Ascii.eqb (PyStr.to_lower c) "_"%char = false.
Proof.
  destruct c as [[] [] [] [] [] [] [] []]; vm_compute;
    intros H; try discriminate H; repeat split.
Qed.

Lemma replace_underscore_clean (s : string) :
  has_underscore (PyStr.replace_underscore s) = false.
Proof.
  induction s as [|c s IH]; cbn [PyStr.replace_underscore has_underscore];
    [reflexivity|].
  rewrite IH, orb_false_r.
  destruct (Ascii.eqb c "_"%char) eqn:Hc; [reflexivity|exact Hc].
Qed.

Lemma replace_underscore_fixes_clean (s : string) :
  has_underscore s = false -> PyStr.replace_underscore s = s.
Proof.
  induction s as [|c s IH]; cbn [PyStr.replace_underscore has_underscore];
    [reflexivity|].
  intros H. apply orb_false_iff in H as [Hc Hs].
  now rewrite Hc, (IH Hs).
Qed.

Lemma title_from_clean (s : string) :
  forall b, has_underscore s = false ->
            has_underscore (PyStr.title_from b s) = false.
Proof.
  induction s as [|c s IH]; intros b; cbn [PyStr.title_from has_underscore];
    [reflexivity|].
  intros H. apply orb_false_iff in H as [Hc Hs].
  destruct (PyStr.is_lower c) eqn:Hl; [|destruct (PyStr.is_upper c) eqn:Hu];
    cbn [has_underscore]; rewrite (IH _ Hs), orb_false_r.
  - destruct b; [exact Hc|]. now apply upper_of_lower.
  - destruct b; [|exact Hc]. now apply lower_of_upper.
  - exact Hc.
Qed.

Lemma title_from_idempotent (s : string) :
  forall b, PyStr.title_from b (PyStr.title_from b s) = PyStr.title_from b s.
Proof.
  induction s as [|c s IH]; intros b; cbn [PyStr.title_from];
    [reflexivity|].
  destruct (PyStr.is_lower c) eqn:Hl; [|destruct (PyStr.is_upper c) eqn:Hu].
  - destruct b; cbn [PyStr.title_from].
    + now rewrite Hl, IH.
    + destruct (upper_of_lower c Hl) as (Hl' & Hu' & _).
      now rewrite Hl', Hu', IH.
  - destruct b; cbn [PyStr.title_from].
    + destruct (lower_of_upper c Hu) as (Hl' & _).
      now rewrite Hl', IH.
    + now rewrite Hl, Hu, IH.
  - cbn [PyStr.title_from]. now rewrite Hl, Hu, IH.
Qed.

End Display.

(** X13.  The display form [name.replace("_", " ").title()] has as many
    characters as the name, holds no underscore, and is a fixed point:
    displaying a displayed name changes nothing. *)
Theorem display_form_is_stable :
  forall s : string,
    String.length (PyStr.display s) = String.length s /\
    has_underscore (PyStr.display s) = false /\
    PyStr.display (PyStr.display s) = PyStr.display s.
Proof.
  intros s. unfold PyStr.display, PyStr.title.
  split; [|split].
  - now rewrite title_from_length, replace_underscore_length.
  - apply title_from_clean, replace_underscore_clean.
  - rewrite (replace_underscore_fixes_clean
               (PyStr.title_from false (PyStr.replace_underscore s))).
    + apply title_from_idempotent.
    + apply title_from_clean, replace_underscore_clean.
Qed.

(* ===================================================================== *)
(** ** Rounding in the response *)
(* ===================================================================== *)

Section Rounding.

(** Rounding to an integer stays between integer bounds. *)
Lemma round_half_even_between (q : Q) (lo hi : Z) :
  (inject_Z lo <= q)%Q -> (q <= inject_Z hi)%Q ->
  (lo <= round_half_even q <= hi)%Z.
Proof.
  intros Hlo Hhi.
  assert (Hf1 : (lo <= Qfloor q)%Z).
  { rewrite <- (Qfloor_Z lo). now apply Qfloor_resp_le. }
  assert (Hf2 : (Qfloor q <= hi)%Z).
  { rewrite <- (Qfloor_Z hi). now apply Qfloor_resp_le. }
  assert (Hup : (0 < q - inject_Z (Qfloor q))%Q -> (Qfloor q + 1 <= hi)%Z).
  { intros Hr.
    assert (Hlt : (inject_Z (Qfloor q) < inject_Z hi)%Q).
    { eapply Qlt_le_trans; [|exact Hhi].
      apply (Qplus_lt_l _ _ (- inject_Z (Qfloor q))).
      rewrite Qplus_opp_r. exact Hr. }
    rewrite <- Zlt_Qlt in Hlt. lia. }
  unfold round_half_even.
  destruct (Np.gtb (q - inject_Z (Qfloor q)) (1 # 2)) eqn:Hg.
  - apply gtb_true in Hg. split; [lia|]. apply Hup.
    eapply Qlt_trans; [|exact Hg]. reflexivity.
  - destruct (Qeq_bool (q - inject_Z (Qfloor q)) (1 # 2)) eqn:He;
      [|lia].
    destruct (Z.even (Qfloor q)); [lia|].
    split; [lia|]. apply Hup.
    apply Qeq_bool_eq in He. rewrite He. reflexivity.
Qed.

End Rounding.

(** X14.  For a top confidence between 0 and 1 the reported
    [confidence_percentage], [round(confidence * 100, 1)], lies between 0
    and 100. *)
Theorem confidence_percentage_in_range :
  forall confidence : Q,
    (0 <= confidence)%Q -> (confidence <= 1)%Q ->
    (0 <= py_round (confidence * 100) 1)%Q /\
    (py_round (confidence * 100) 1 <= 100)%Q.
Proof.
  intros c H0 H1. unfold py_round.
  change (inject_Z (10 ^ Z.of_nat 1)) with (inject_Z 10).
  assert (Hlo : (inject_Z 0 <= c * 100 * inject_Z 10)%Q).
  { change (inject_Z 0) with 0%Q.
    apply Qmult_le_0_compat; [|discriminate].
    apply Qmult_le_0_compat; [assumption|discriminate]. }
  assert (Hhi : (c * 100 * inject_Z 10 <= inject_Z 1000)%Q).
  { setoid_replace (inject_Z 1000) with (1 * 100 * inject_Z 10)%Q
      by reflexivity.
    apply Qmult_le_compat_r; [|discriminate].
    apply Qmult_le_compat_r; [assumption|discriminate]. }
  destruct (@round_half_even_between _ 0 1000 Hlo Hhi) as [Hr0 Hr1].
  set (r := round_half_even (c * 100 * inject_Z 10)) in *.
  split.
  - apply Qle_shift_div_l; [reflexivity|].
    rewrite Qmult_0_l. change 0%Q with (inject_Z 0).
    now rewrite <- Zle_Qle.
  - apply Qle_shift_div_r; [reflexivity|].
    change (100 * inject_Z 10)%Q with (inject_Z 1000).
    now rewrite <- Zle_Qle.
Qed.

Lemma confidence_percentage_in_range_witness :
  (0 <= py_round ((3#5) * 100) 1)%Q /\
  (py_round ((3#5) * 100) 1 <= 100)%Q.
Proof.
  apply (@confidence_percentage_in_range (3#5)); discriminate.
Defined.

(* ===================================================================== *)
(** ** When a label cannot be decoded *)
(* ===================================================================== *)

(** X15.  [get_pred_label] raises rather than guess: [ValueError] on an
    empty output, [IndexError] when the maximum sits at a position the
    list in [breeds] does not have, [TypeError] while [breeds] is still
    [None].  The state is left as it was. *)
Theorem get_pred_label_errors :
  forall (s : State) (preds : list (list Q)),
    (concat preds = [] ->
     exists msg, get_pred_label preds s = (Raise (PyExc ValueError msg), s)) /\
    (forall items i,
        breeds s = JArr items ->
        Np.argmax (concat preds) = Ok i ->
        (List.length items <= i)%nat ->
        exists msg,
          get_pred_label preds s = (Raise (PyExc IndexError msg), s)) /\
    (forall i,
        breeds s = JNull ->
        Np.argmax (concat preds) = Ok i ->
        exists msg,
          get_pred_label preds s = (Raise (PyExc TypeError msg), s)).
Proof.
  intros s preds.
  unfold get_pred_label, bind, global_breeds, lift. cbn beta.
  split; [|split].
  - intros ->. eexists. reflexivity.
  - intros items i Hb Harg Hi. rewrite Harg, Hb. cbn [py_getitem].
    apply nth_error_None in Hi. rewrite Hi. eexists. reflexivity.
  - intros i Hb Harg. rewrite Harg, Hb. eexists. reflexivity.
Qed.

Example label_past_the_list :
  get_pred_label [[1#10; 1#10; 4#5]%Q]
    (mkState None (JArr [JStr "pug"; JStr "beagle"]) []) =
    (Raise (PyExc IndexError "list index out of range"),
     mkState None (JArr [JStr "pug"; JStr "beagle"]) []).
Proof. reflexivity. Qed.
